(** * The meal-planner function: event handler and AI client of [app.py]

    A shallow embedding of [handler] and [get_ai_response].  Python values
    that travel through the program (the event, the parsed bodies, the
    payload sent upstream, the decoded upstream answer) are JSON-shaped and
    are modelled by the inductive type [value].  A character of a Rocq
    [string] stands for one code point in the range 0..255.

    Effects are explicit:
    - exceptions are values of type [exn]; a computation yields [Ok v] or
      [Raise e];
    - the outbound HTTP calls of [requests.post] are recorded in a trace
      (the world state) and answered by an oracle [network];
    - [datetime.now()] is the parameter [now];
    - the process-wide API key is the parameter [MODEL_STUDIO_API_KEY];
    - [print] changes no result unless it raises.  [handler] and
      [get_ai_response] leave it out; a print of [handler] raises on a
      str that stdout cannot encode, and the module [Logged] further down
      is the handler with its prints. *)

From Stdlib Require Import String Ascii List ZArith NArith Bool Lia DecimalString.
Import ListNotations.
Open Scope string_scope.
Set Warnings "-register-all".

(** ** Python values *)

Inductive value : Type :=
| VNone
| VBool (b : bool)
| VInt (n : Z)
| VFloat (repr : string)      (* a float, kept as its decimal text *)
| VStr (s : string)
| VList (l : list value)
| VDict (d : list (string * value)).   (* insertion-ordered, string keys *)

Definition dict := list (string * value).
Bind Scope list_scope with dict.

(** [type(v).__name__], as it appears in CPython's error messages. *)
Definition type_name (v : value) : string :=
  match v with
  | VNone => "NoneType"
  | VBool _ => "bool"
  | VInt _ => "int"
  | VFloat _ => "float"
  | VStr _ => "str"
  | VList _ => "list"
  | VDict _ => "dict"
  end.

Definition is_str (v : value) : bool :=
  match v with VStr _ => true | _ => false end.

(** [v == s] for a string literal [s]: only an equal [str] compares equal. *)
Definition eq_str (v : value) (s : string) : bool :=
  match v with VStr t => String.eqb t s | _ => false end.

(** ** Dictionaries *)

Fixpoint lookup (k : string) (d : dict) : option value :=
  match d with
  | [] => None
  | (k', v) :: d' => if String.eqb k k' then Some v else lookup k d'
  end.

Definition has_key (k : string) (d : dict) : bool :=
  match lookup k d with Some _ => true | None => false end.

(** [d.get(k, default)] on a dict. *)
Definition dict_get (k : string) (default : value) (d : dict) : value :=
  match lookup k d with Some v => v | None => default end.

(** ** Strings *)

(** [sub in s] on strings. *)
Fixpoint contains (sub s : string) : bool :=
  if String.prefix sub s then true
  else match s with
       | EmptyString => false
       | String _ s' => contains sub s'
       end.

(** [s[:n]] *)
Fixpoint take (n : nat) (s : string) : string :=
  match n, s with
  | S n', String c s' => String c (take n' s')
  | _, _ => EmptyString
  end.

(** [str.isspace] on one character, for the code points below 256:
    TAB, LF, VT, FF, CR, FS, GS, RS, US, SPACE, NEL (0x85), NBSP (0xA0). *)
Definition is_space (c : ascii) : bool :=
  let n := nat_of_ascii c in
  (((9 <=? n) && (n <=? 13)) || ((28 <=? n) && (n <=? 32))
   || (n =? 133) || (n =? 160))%nat.

Fixpoint lstrip (s : string) : string :=
  match s with
  | String c s' => if is_space c then lstrip s' else s
  | EmptyString => EmptyString
  end.

Fixpoint rev_string (s acc : string) : string :=
  match s with
  | EmptyString => acc
  | String c s' => rev_string s' (String c acc)
  end.

Definition rstrip (s : string) : string :=
  rev_string (lstrip (rev_string s "")) "".

(** [s.strip()] *)
Definition strip (s : string) : string := rstrip (lstrip s).

(** Truth value of a string: non-empty. *)
Definition truthy_str (s : string) : bool :=
  match s with EmptyString => false | _ => true end.

(** ** Exceptions

    Only exceptions derived from [Exception] are modelled; their messages
    are worded as CPython 3.12 words them. *)

Inductive exn : Type :=
| TypeError (msg : string)
| AttributeError (msg : string)
| KeyError (key : string)
| JSONDecodeError (msg : string)
| RequestException (msg : string)    (* anything [requests.post] raises *)
| ValueError (msg : string)
| RecursionError (msg : string)
| UnicodeEncodeError (msg : string)
| UnicodeDecodeError (msg : string).

(** [str(e)] *)
Definition str_exn (e : exn) : string :=
  match e with
  | TypeError m => m
  | AttributeError m => m
  | KeyError k => "'" ++ k ++ "'"
  | JSONDecodeError m => m
  | RequestException m => m
  | ValueError m => m
  | RecursionError m => m
  | UnicodeEncodeError m => m
  | UnicodeDecodeError m => m
  end.

Definition no_attribute (v : value) (attr : string) : exn :=
  AttributeError ("'" ++ type_name v ++ "' object has no attribute '" ++ attr ++ "'").

Inductive result (A : Type) : Type :=
| Ok (a : A)
| Raise (e : exn).
Arguments Ok {A} a.
Arguments Raise {A} e.

(** ** Operations of Python values that may raise *)

(** [k in v] for a string [k]. *)
Definition py_in (k : string) (v : value) : result bool :=
  match v with
  | VDict d => Ok (has_key k d)
  | VStr s => Ok (contains k s)
  | VList l => Ok (existsb (fun x => eq_str x k) l)
  | _ => Raise (TypeError ("argument of type '" ++ type_name v ++ "' is not iterable"))
  end.

(** [v[k]] for a string [k]. *)
Definition py_getitem (v : value) (k : string) : result value :=
  match v with
  | VDict d => match lookup k d with
               | Some x => Ok x
               | None => Raise (KeyError k)
               end
  | VStr _ => Raise (TypeError "string indices must be integers, not 'str'")
  | VList _ => Raise (TypeError "list indices must be integers or slices, not str")
  | _ => Raise (TypeError ("'" ++ type_name v ++ "' object is not subscriptable"))
  end.

(** [v.get(k, default)] *)
Definition py_get (v : value) (k : string) (default : value) : result value :=
  match v with
  | VDict d => Ok (dict_get k default d)
  | _ => Raise (no_attribute v "get")
  end.

(** [v.strip()] *)
Definition py_strip (v : value) : result string :=
  match v with
  | VStr s => Ok (strip s)
  | _ => Raise (no_attribute v "strip")
  end.

(** ** The [json] module

    [json.dumps] and [json.loads] are library code.  The program is
    modelled over any implementation of this interface; [json_loads]
    answers [None] where [json.loads] raises.  [handler] takes the
    exception to be a [JSONDecodeError] and [json.dumps] not to raise;
    the limits of the interpreter (recursion depth on deeply nested
    input, the size of an integer literal), under which [json.loads]
    raises another exception and [json.dumps] raises too, are kept by the
    module [Logged].  A reference implementation, [RefJson.ref_json], is
    given further down. *)

Class Json : Type := {
  json_dumps : value -> string;                  (* json.dumps(v) *)
  json_dumps_indent : nat -> value -> string;    (* json.dumps(v, indent=n) *)
  json_loads : string -> option value            (* json.loads(s) *)
}.

(** ** Outbound HTTP: [requests.post] *)

Record request : Type := {
  url : string;
  headers : list (string * string);
  json_payload : value;
  timeout : Z
}.

Record response : Type := {
  status_code : Z;
  text : string
}.

Inductive outcome : Type :=
| Responds (r : response)
| Fails (e : exn).

(** The world state: the requests sent so far, oldest first. *)
Definition world := list request.
Bind Scope list_scope with world.

(** ** [datetime.now().strftime('%Y-%m-%d %H:%M:%S')] *)

Record datetime : Type := {
  year : N; month : N; day : N; hour : N; minute : N; second : N
}.

Definition dec (n : N) : string :=
  DecimalString.NilZero.string_of_uint (N.to_uint n).

Fixpoint zeros (k : nat) : string :=
  match k with O => "" | S k' => String "0" (zeros k') end.

(** A decimal number padded with zeros on the left to [w] digits. *)
Definition zpad (w : nat) (n : N) : string :=
  zeros (w - String.length (dec n)) ++ dec n.

Definition strftime (t : datetime) : string :=
  zpad 4 (year t) ++ "-" ++ zpad 2 (month t) ++ "-" ++ zpad 2 (day t) ++ " "
  ++ zpad 2 (hour t) ++ ":" ++ zpad 2 (minute t) ++ ":" ++ zpad 2 (second t).

(** What [datetime.now()] can be: the fields of a calendar date and
    time of day, in a year of four digits. *)
Definition valid_datetime (t : datetime) : Prop :=
  (1000 <= year t <= 9999 /\ 1 <= month t <= 12 /\ 1 <= day t <= 31
   /\ hour t <= 23 /\ minute t <= 59 /\ second t <= 59)%N.

Definition is_digit (c : ascii) : bool :=
  ((48 <=? nat_of_ascii c) && (nat_of_ascii c <=? 57))%nat.

(** [matches pat s]: [s] has the shape [pat], where a [d] of the pattern
    stands for one decimal digit and any other character for itself. *)
Fixpoint matches (pat s : string) : bool :=
  match pat, s with
  | EmptyString, EmptyString => true
  | String p pat', String c s' =>
      (if Ascii.eqb p "d" then is_digit c else Ascii.eqb p c) && matches pat' s'
  | _, _ => false
  end.

(** The format YYYY-MM-DD HH:MM:SS. *)
Definition is_timestamp (s : string) : bool := matches "dddd-dd-dd dd:dd:dd" s.

(** ** The environment of one run *)

Record Env : Type := {
  MODEL_STUDIO_API_KEY : option string;      (* os.environ.get(...) *)
  network : world -> request -> outcome;     (* the answer to a request *)
  now : datetime                             (* datetime.now() *)
}.

(** ** Computations: state (the trace of requests) and exceptions *)

Definition M (A : Type) : Type := world -> result A * world.

Definition ret {A} (a : A) : M A := fun w => (Ok a, w).

Definition raise {A} (e : exn) : M A := fun w => (Raise e, w).

Definition bind {A B} (m : M A) (k : A -> M B) : M B :=
  fun w => match m w with
           | (Ok a, w') => k a w'
           | (Raise e, w') => (Raise e, w')
           end.

(** [try: m  except Exception as e: h e] *)
Definition try_except {A} (m : M A) (h : exn -> M A) : M A :=
  fun w => match m w with
           | (Ok a, w') => (Ok a, w')
           | (Raise e, w') => h e w'
           end.

Definition lift {A} (r : result A) : M A := fun w => (r, w).

Declare Scope py_scope.
Delimit Scope py_scope with py.
Notation "x <- m ;; k" := (bind m (fun x => k))
  (at level 61, m at next level, right associativity) : py_scope.
Notation "' pat <- m ;; k" := (bind m (fun x => match x with pat => k end))
  (at level 61, pat pattern, m at next level, right associativity) : py_scope.
Open Scope py_scope.

(** ** HTTP results of the handler *)

Record HttpResult : Type := {
  statusCode : Z;
  res_headers : list (string * string);
  res_body : string
}.

Definition nl : string := String (ascii_of_nat 10) "".

(** The double quote character, as a string. *)
Definition dq : string := String (ascii_of_nat 34) "".

Fixpoint unlines (ls : list string) : string :=
  match ls with
  | [] => ""
  | [l] => l
  | l :: ls' => l ++ nl ++ unlines ls'
  end.

(** ** The fixed strings of the AI client *)

Definition service_unavailable : string :=
  "I'm having trouble connecting to the AI service. Please check that the API key is configured correctly.".

Definition canned_suggestion : string :=
  "I received your message about meal planning! Here's a personalized suggestion: For a healthy vegetarian lunch, try a quinoa bowl with roasted vegetables, chickpeas, and tahini dressing. It's nutritious and delicious!".

Definition api_key_trouble : string :=
  "I'm having trouble with my API key. Please check that it's correctly configured. Meanwhile, here's a suggestion: For a healthy vegetarian lunch, try a colorful salad with quinoa, roasted vegetables, and protein like chickpeas or tofu!".

Definition technical_difficulties : string :=
  "I'm having some technical difficulties right now, but I'd love to help you plan healthy meals! For a vegetarian lunch, I suggest a nutrient-packed bowl with quinoa, fresh vegetables, and a protein source.".

Definition exception_fallback : string :=
  "I received your message about meal planning. I'm having some technical difficulties right now, but here's a great suggestion: Try a Mediterranean-style quinoa bowl with chickpeas, cucumber, tomatoes, and olive oil dressing for a healthy vegetarian lunch!".

Definition system_prompt : string :=
  unlines
    [ "You are a helpful AI meal planning assistant. You help users plan their meals based on their dietary preferences, restrictions, and goals. ";
      "";
      "Key guidelines:";
      "- Ask about dietary restrictions (vegetarian, vegan, gluten-free, etc.)";
      "- Consider nutritional balance";
      "- Suggest specific meals and recipes";
      "- Be encouraging and helpful";
      "- Keep responses concise but informative";
      "";
      "User preferences to remember:";
      "- Dietary restrictions";
      "- Cuisine preferences  ";
      "- Cooking skill level";
      "- Time constraints" ].

Definition intl_url : string :=
  "https://dashscope-intl.aliyuncs.com/api/v1/services/aigc/text-generation/generation".

Definition regional_url : string :=
  "https://dashscope.aliyuncs.com/api/v1/services/aigc/text-generation/generation".

(** * The program *)

Section Program.

Context {J : Json}.
Variable E : Env.

(** [requests.post(url, headers=headers, json=data, timeout=t)]: the
    request is recorded, then answered or failed by the network. *)
Definition requests_post (u : string) (hs : list (string * string))
    (data : value) (t : Z) : M response :=
  fun w =>
    let rq := {| url := u; headers := hs; json_payload := data; timeout := t |} in
    match network E w rq with
    | Responds r => (Ok r, (w ++ [rq])%list)
    | Fails e => (Raise e, (w ++ [rq])%list)
    end.

(** [response.json()] *)
Definition response_json (r : response) : M value :=
  match json_loads (text r) with
  | Some v => ret v
  | None => raise (JSONDecodeError "Expecting value")
  end.

(** ['output' in response_data and 'text' in response_data['output']] *)
Definition has_output_text (response_data : value) : M bool :=
  c <- lift (py_in "output" response_data) ;;
  if c : bool then
    o <- lift (py_getitem response_data "output") ;;
    lift (py_in "text" o)
  else ret false.

(** [response_data['output']['text']] *)
Definition get_output_text (response_data : value) : M value :=
  o <- lift (py_getitem response_data "output") ;;
  lift (py_getitem o "text").

(** [not MODEL_STUDIO_API_KEY]: the variable is unset or empty. *)
Definition no_api_key : bool :=
  match MODEL_STUDIO_API_KEY E with
  | None => true
  | Some k => negb (truthy_str k)
  end.

Definition api_key_text : string :=
  match MODEL_STUDIO_API_KEY E with Some k => k | None => "None" end.

Definition ai_headers : list (string * string) :=
  [ ("Authorization", "Bearer " ++ api_key_text);
    ("Content-Type", "application/json") ].

Definition ai_data (user_message : value) : value :=
  VDict
    [ ("model", VStr "qwen-turbo");
      ("input",
        VDict [ ("messages",
                  VList [ VDict [ ("role", VStr "system");
                                  ("content", VStr system_prompt) ];
                          VDict [ ("role", VStr "user");
                                  ("content", user_message) ] ]) ]);
      ("parameters",
        VDict [ ("max_tokens", VInt 500); ("temperature", VFloat "0.7") ]) ].

(** The tail of the [else] branch: the choice of the fallback text by the
    status of the response last received. *)
Definition status_fallback (r : response) : M value :=
  if (status_code r =? 401)%Z then ret (VStr api_key_trouble)
  else ret (VStr technical_difficulties).

(** The body of the [try] block of [get_ai_response]. *)
Definition get_ai_response_try (user_message user_id : value) : M value :=
  if no_api_key then ret (VStr service_unavailable)
  else
    let url := intl_url in
    let headers := ai_headers in
    let data := ai_data user_message in
    response <- requests_post url headers data 30 ;;
    if (status_code response =? 200)%Z then
      response_data <- response_json response ;;
      c <- has_output_text response_data ;;
      if c : bool then get_output_text response_data
      else ret (VStr canned_suggestion)
    else
      if contains "dashscope-intl" url then
        let url := regional_url in
        response <- requests_post url headers data 30 ;;
        if (status_code response =? 200)%Z then
          response_data <- response_json response ;;
          c <- has_output_text response_data ;;
          if c : bool then get_output_text response_data
          else status_fallback response
        else status_fallback response
      else status_fallback response.

Definition get_ai_response (user_message user_id : value) : M value :=
  try_except (get_ai_response_try user_message user_id)
             (fun e => ret (VStr exception_fallback)).

(** ** The handler *)

Definition timestamp : string := strftime (now E).

(** Lines 35-50: where the body is looked for. *)
Definition get_body_str (event : dict) : value :=
  match lookup "body" event with
  | Some b => b
  | None =>
      match lookup "data" event with
      | Some d => d
      | None => VStr (json_dumps (VDict event))
      end
  end.

(** Lines 56-68: the body is decoded; a [JSONDecodeError] makes the event
    itself the body. *)
Definition parse_body (event : dict) (body_str : value) : value :=
  match body_str with
  | VStr s =>
      if truthy_str s then
        match json_loads s with
        | Some v => v
        | None => VDict event
        end
      else VDict []
  | VDict _ => body_str
  | _ => VDict []
  end.

(** Lines 81-87: the nested body; the bare [except] swallows every
    exception and keeps what was assigned before it. *)
Definition extract_nested (s : string) (user_message user_id : value)
  : value * value :=
  match json_loads s with
  | None => (user_message, user_id)
  | Some inner_body =>
      match py_get inner_body "message" (VStr "") with
      | Raise _ => (user_message, user_id)
      | Ok m =>
          match py_get inner_body "user_id" (VStr "anonymous") with
          | Raise _ => (m, user_id)
          | Ok u => (m, u)
          end
      end
  end.

(** Lines 71-87: the message and the user identifier found in the body. *)
Definition extract_message (body : value) : M (value * value) :=
  let user_message := VStr "" in
  let user_id := VStr "anonymous" in
  c <- lift (py_in "message" body) ;;
  if c : bool then
    user_message <- lift (py_getitem body "message") ;;
    user_id <- lift (py_get body "user_id" (VStr "anonymous")) ;;
    ret (user_message, user_id)
  else
    c2 <- lift (py_in "body" body) ;;
    if c2 : bool then
      b <- lift (py_getitem body "body") ;;
      match b with
      | VStr s => ret (extract_nested s user_message user_id)
      | _ => ret (user_message, user_id)
      end
    else ret (user_message, user_id).

Definition debug_response (event : dict) : string :=
  "[DEBUG] Could not extract message. Event structure: "
  ++ take 500 (json_dumps_indent 2 (VDict event)) ++ "...".

Definition chat_response (resp : value) : value :=
  VDict [ ("response", resp); ("timestamp", VStr timestamp) ].

Definition post_headers : list (string * string) :=
  [ ("Content-Type", "application/json");
    ("Access-Control-Allow-Origin", "*");
    ("Access-Control-Allow-Methods", "POST, GET, OPTIONS");
    ("Access-Control-Allow-Headers", "Content-Type") ].

(** Lines 91-114: the answer to a message. *)
Definition respond (event : dict) (user_message user_id : value)
  : M (option HttpResult) :=
  stripped <- lift (py_strip user_message) ;;
  response <- (if truthy_str stripped
               then get_ai_response user_message user_id
               else ret (VStr (debug_response event))) ;;
  ret (Some {| statusCode := 200;
               res_headers := post_headers;
               res_body := json_dumps (chat_response response) |}).

Definition handler_post (event : dict) : M (option HttpResult) :=
  let body_str := get_body_str event in
  let body := parse_body event body_str in
  ' (user_message, user_id) <- extract_message body ;;
  respond event user_message user_id.

Definition greeting : string :=
  "Send a POST request with {" ++ dq ++ "message" ++ dq ++ ": " ++ dq
  ++ "your message" ++ dq ++ ", " ++ dq ++ "user_id" ++ dq ++ ": " ++ dq
  ++ "optional" ++ dq ++ "} to chat with me.".

Definition get_result : HttpResult :=
  {| statusCode := 200;
     res_headers := [ ("Content-Type", "application/json");
                      ("Access-Control-Allow-Origin", "*") ];
     res_body :=
       json_dumps
         (VDict [ ("status", VStr "AI Meal Planner is running!");
                  ("message", VStr greeting);
                  ("timestamp", VStr timestamp) ]) |}.

Definition options_result : HttpResult :=
  {| statusCode := 200;
     res_headers := [ ("Access-Control-Allow-Origin", "*");
                      ("Access-Control-Allow-Methods", "POST, GET, OPTIONS");
                      ("Access-Control-Allow-Headers", "Content-Type") ];
     res_body := "" |}.

(** Lines 145-160: what the [except] clause returns. *)
Definition error_result (e : exn) : HttpResult :=
  {| statusCode := 500;
     res_headers := [ ("Content-Type", "application/json");
                      ("Access-Control-Allow-Origin", "*") ];
     res_body :=
       json_dumps
         (VDict [ ("response",
                    VStr ("Sorry, I encountered an error: " ++ str_exn e));
                  ("timestamp", VStr timestamp) ]) |}.

(** The body of the [try] block of [handler]; [None] is the value of a
    call that falls off the end of the function. *)
Definition handler_try (event : dict) : M (option HttpResult) :=
  let http_method := dict_get "httpMethod" (VStr "GET") event in
  if eq_str http_method "POST" then handler_post event
  else if eq_str http_method "GET" then ret (Some get_result)
  else if eq_str http_method "OPTIONS" then ret (Some options_result)
  else ret None.

Definition handler (event : dict) (context : value) : M (option HttpResult) :=
  try_except (handler_try event) (fun e => ret (Some (error_result e))).

End Program.

(** * The local server shim: [RequestHandler]

    What [send_response], [send_header], [end_headers] and [wfile.write]
    put on the connection is the record [wire_response] (the [Server] and
    [Date] headers that [send_response] adds by itself are left out).
    Lines 264-266 up to the decoding, that is the reading of the
    [Content-Length] header, of that many bytes from the socket and their
    decoding as UTF-8, are the work of the socket and codec libraries:
    their outcome, the text of the request body or the exception raised
    on the way, is the input [received] of [do_POST]. *)

Record wire_response : Type := {
  wire_status : Z;
  wire_headers : list (string * string);
  wire_body : string
}.

Section Shim.

Context {J : Json}.
Variable E : Env.

(** Lines 278-282 and 296-300: the result of the handler is written out;
    [result['statusCode']] on [None] raises. *)
Definition send_result (result : option HttpResult) : M wire_response :=
  match result with
  | Some r =>
      ret {| wire_status := statusCode r;
             wire_headers := res_headers r;
             wire_body := res_body r |}
  | None => raise (TypeError "'NoneType' object is not subscriptable")
  end.

(** Line 266: [json.loads] of the decoded text.  The message of the
    exception is cut short here; [Logged.do_POST] raises the exception
    [json.loads] raises. *)
Definition shim_loads (text : string) : M value :=
  match json_loads text with
  | Some v => ret v
  | None => raise (JSONDecodeError "Expecting value")
  end.

(** Lines 269-272: the event the shim builds from the decoded body. *)
Definition shim_event (body : value) : dict :=
  [ ("httpMethod", VStr "POST"); ("body", VStr (json_dumps body)) ].

(** Lines 284-289: what the [except] clause writes. *)
Definition shim_error (e : exn) : wire_response :=
  {| wire_status := 500;
     wire_headers := [ ("Content-Type", "application/json") ];
     wire_body := json_dumps (VDict [ ("error", VStr (str_exn e)) ]) |}.

Definition do_POST (received : result string) : M wire_response :=
  try_except
    (post_text <- lift received ;;
     body <- shim_loads post_text ;;
     let event := shim_event body in
     result <- handler E event (VDict []) ;;
     send_result result)
    (fun e => ret (shim_error e)).

Definition do_GET : M wire_response :=
  let event := [ ("httpMethod", VStr "GET") ] in
  result <- handler E event (VDict []) ;;
  send_result result.

End Shim.

(** * The handler with its prints and every failure of [json]

    [handler] above leaves the prints out and takes [json.loads] to fail
    with [JSONDecodeError] only.  That is the program as long as stdout
    encodes what is printed and the limits of the interpreter are not
    met (lemma [quiet_handler]).  The module [Logged] keeps both:
    - [print] of a str raises [UnicodeEncodeError] when stdout cannot
      encode one of its characters.  Under UTF-8 such a character is a
      lone surrogate, which [json.loads] builds from an escape like
      [\ud800]; the characters of this model are the code points below
      256, so which of them stdout refuses is a parameter of the run,
      [encodable], and a character it refuses plays the part of the lone
      surrogate.  ASCII is always encoded.  A value that is no str is
      shown through its [repr], which escapes what cannot be printed, and
      never fails; the fixed texts and the messages of exceptions are
      ASCII.
    - [json.loads] raises [JSONDecodeError] on a text that is not JSON,
      [ValueError] on an integer literal beyond the digits limit of the
      interpreter and [RecursionError] on a text nested too deep:
      [json_loads] answers [None] in all these cases and [loads_error] is
      the exception raised.
    - [json.dumps] raises [ValueError] on an integer beyond the digits
      limit: [dumps_raises].

    The AI client is the one above: it prints the URL, the API key, the
    status codes and the upstream text as [requests] decoded it, never a
    string of the request. *)

Record Runtime : Type := {
  encodable : ascii -> bool;                     (* stdout encodes the character *)
  codec_message : nat -> list value -> string;   (* the message of the error [print]
                                                    raises at a line for the values shown *)
  loads_error : string -> exn;                   (* what json.loads(s) raises *)
  dumps_raises : value -> option exn             (* what json.dumps(v) raises, if it does *)
}.

(** [try: m  except json.JSONDecodeError: h] *)
Definition try_except_decode {A} (m : M A) (h : M A) : M A :=
  fun w => match m w with
           | (Raise (JSONDecodeError _), w') => h w'
           | r => r
           end.

Module Logged.

Section Program.

Context {J : Json}.
Variable R : Runtime.
Variable E : Env.

(** stdout encodes every character of [s]. *)
Definition stdout_encodes (s : string) : bool :=
  forallb (fun c => (nat_of_ascii c <? 128)%nat || encodable R c)
          (list_ascii_of_string s).

(** A value in an f-string: a str is shown as it is, any other value
    through its [repr]. *)
Definition shows (v : value) : bool :=
  match v with VStr s => stdout_encodes s | _ => true end.

(** [print(f"...")] at a source line, for the values the f-string shows. *)
Definition py_print (line : nat) (shown : list value) : M unit :=
  if forallb shows shown then ret tt
  else raise (UnicodeEncodeError (codec_message R line shown)).

(** [json.loads(s)] *)
Definition loads (s : string) : M value :=
  match json_loads s with
  | Some v => ret v
  | None => raise (loads_error R s)
  end.

(** [json.dumps(v)] and [json.dumps(v, indent=n)] *)
Definition dumps (v : value) : M string :=
  match dumps_raises R v with
  | Some e => raise e
  | None => ret (json_dumps v)
  end.

Definition dumps_indent (n : nat) (v : value) : M string :=
  match dumps_raises R v with
  | Some e => raise e
  | None => ret (json_dumps_indent n v)
  end.

(** Lines 35-53: where the body is looked for.  Lines 49 and 53 print a
    fixed text and the name of a type. *)
Definition get_body_str (event : dict) : M value :=
  body_str <-
    match lookup "body" event with
    | Some b => _ <- py_print 40 [b] ;; ret b
    | None =>
        match lookup "data" event with
        | Some d => _ <- py_print 45 [d] ;; ret d
        | None => text <- dumps (VDict event) ;; ret (VStr text)
        end
    end ;;
  _ <- py_print 52 [body_str] ;;
  ret body_str.

(** Lines 56-68: the body is decoded and shown; a [JSONDecodeError], and
    no other exception, makes the event itself the body.  Line 65 prints
    the message of the [JSONDecodeError]. *)
Definition parse_body (event : dict) (body_str : value) : M value :=
  try_except_decode
    (body <- match body_str with
             | VStr s => if truthy_str s then loads s else ret (VDict [])
             | VDict _ => ret body_str
             | _ => ret (VDict [])
             end ;;
     _ <- py_print 63 [body] ;;
     ret body)
    (_ <- py_print 68 [VDict event] ;; ret (VDict event)).

(** Lines 81-87: the nested body; the bare [except] swallows every
    exception, that of the print of line 85 too, and keeps what was
    assigned before it. *)
Definition extract_nested (s : string) (user_message user_id : value)
  : M (value * value) :=
  fun w =>
    match loads s w with
    | (Raise _, w') => (Ok (user_message, user_id), w')
    | (Ok inner_body, w') =>
        match py_get inner_body "message" (VStr "") with
        | Raise _ => (Ok (user_message, user_id), w')
        | Ok m =>
            match py_get inner_body "user_id" (VStr "anonymous") with
            | Raise _ => (Ok (m, user_id), w')
            | Ok u => match py_print 85 [m] w' with
                      | (_, w'') => (Ok (m, u), w'')
                      end
            end
        end
    end.

(** Lines 71-89: the message and the user identifier found in the body,
    and their prints. *)
Definition extract_message (body : value) : M (value * value) :=
  let user_message := VStr "" in
  let user_id := VStr "anonymous" in
  c <- lift (py_in "message" body) ;;
  ' (user_message, user_id) <-
    (if c : bool then
       user_message <- lift (py_getitem body "message") ;;
       user_id <- lift (py_get body "user_id" (VStr "anonymous")) ;;
       _ <- py_print 78 [user_message] ;;
       ret (user_message, user_id)
     else
       c2 <- lift (py_in "body" body) ;;
       if c2 : bool then
         b <- lift (py_getitem body "body") ;;
         match b with
         | VStr s => extract_nested s user_message user_id
         | _ => ret (user_message, user_id)
         end
       else ret (user_message, user_id)) ;;
  _ <- py_print 89 [user_message; user_id] ;;
  ret (user_message, user_id).

(** Lines 91-114: the answer to a message.  Line 96 prints a fixed text.
    The value serialised at line 113 was decoded by [json.loads] or built
    here, and [json.dumps] takes it. *)
Definition respond (event : dict) (user_message user_id : value)
  : M (option HttpResult) :=
  stripped <- lift (py_strip user_message) ;;
  response <- (if truthy_str stripped
               then _ <- py_print 93 [user_message] ;;
                    get_ai_response E user_message user_id
               else text <- dumps_indent 2 (VDict event) ;;
                    ret (VStr ("[DEBUG] Could not extract message. Event structure: "
                               ++ take 500 text ++ "..."))) ;;
  ret (Some {| statusCode := 200;
               res_headers := post_headers;
               res_body := json_dumps (chat_response E response) |}).

Definition handler_post (event : dict) : M (option HttpResult) :=
  body_str <- get_body_str event ;;
  body <- parse_body event body_str ;;
  ' (user_message, user_id) <- extract_message body ;;
  respond event user_message user_id.

(** The body of the [try] block of [handler], from line 24 on.  Line 30
    shows the keys of the event through their [repr]. *)
Definition handler_try (event : dict) : M (option HttpResult) :=
  text <- dumps (VDict event) ;;
  _ <- py_print 24 [VStr text] ;;
  let http_method := dict_get "httpMethod" (VStr "GET") event in
  _ <- py_print 31 [http_method] ;;
  if eq_str http_method "POST" then handler_post event
  else if eq_str http_method "GET" then ret (Some (get_result E))
  else if eq_str http_method "OPTIONS" then ret (Some options_result)
  else ret None.

(** Line 146 prints the message of the exception caught, and lines
    148-159 serialise it: strs that [json.dumps] takes. *)
Definition handler (event : dict) (context : value) : M (option HttpResult) :=
  try_except (handler_try event) (fun e => ret (Some (error_result E e))).

(** Lines 261-289 of the shim, from the decoding on: [received] is the
    text of the request body, or the exception raised while its length
    was read, its bytes were received or decoded as UTF-8. *)
Definition do_POST (received : result string) : M wire_response :=
  try_except
    (post_text <- lift received ;;
     body <- loads post_text ;;
     text <- dumps body ;;
     let event := [ ("httpMethod", VStr "POST"); ("body", VStr text) ] in
     result <- handler event (VDict []) ;;
     send_result result)
    (fun e => ret (shim_error e)).

End Program.

End Logged.

(** * A reference implementation of the [json] interface

    [ref_dumps] follows [json.dumps] with its defaults ([ensure_ascii],
    separators [", "] and [": "], or [","] and a line break under
    [indent]); [ref_loads] is a recursive-descent decoder of the JSON
    grammar [json.loads] accepts.  A float keeps the text of its literal,
    and an escape [\uXXXX] above U+00FF, which has no character in this
    model, is refused. *)

Module RefJson.

Definition hex_digit (n : nat) : ascii :=
  if (n <? 10)%nat then ascii_of_nat (48 + n) else ascii_of_nat (87 + n).

(** How [json.dumps] writes one character of a string. *)
Definition escape_char (c : ascii) : string :=
  let n := nat_of_ascii c in
  if (n =? 34)%nat then "\" ++ dq
  else if (n =? 92)%nat then "\\"
  else if (n =? 10)%nat then "\n"
  else if (n =? 13)%nat then "\r"
  else if (n =? 9)%nat then "\t"
  else if (n =? 8)%nat then "\b"
  else if (n =? 12)%nat then "\f"
  else if ((32 <=? n) && (n <=? 126))%nat then String c ""
  else "\u00" ++ String (hex_digit (n / 16)) (String (hex_digit (n mod 16)) "").

Fixpoint escape (s : string) : string :=
  match s with
  | EmptyString => ""
  | String c s' => escape_char c ++ escape s'
  end.

Definition quote (s : string) : string := dq ++ escape s ++ dq.

Definition dumps_int (n : Z) : string :=
  DecimalString.NilZero.string_of_int (Z.to_int n).

Fixpoint spaces (k : nat) : string :=
  match k with O => "" | S k' => String " " (spaces k') end.

(** The text between two items and around them, at nesting [level]:
    with no [indent], [", "]; with [indent = n], a comma and a line
    break followed by [n * level] blanks. *)
Definition item_sep (indent : option nat) (level : nat) : string :=
  match indent with
  | None => ", "
  | Some n => "," ++ nl ++ spaces (n * level)
  end.

Definition open_sep (indent : option nat) (level : nat) : string :=
  match indent with
  | None => ""
  | Some n => nl ++ spaces (n * level)
  end.

Fixpoint dumps_at (indent : option nat) (level : nat) (v : value) : string :=
  match v with
  | VNone => "null"
  | VBool true => "true"
  | VBool false => "false"
  | VInt n => dumps_int n
  | VFloat r => r
  | VStr s => quote s
  | VList [] => "[]"
  | VList l =>
      "[" ++ open_sep indent (S level)
      ++ (fix items (l : list value) : string :=
            match l with
            | [] => ""
            | [x] => dumps_at indent (S level) x
            | x :: l' =>
                dumps_at indent (S level) x ++ item_sep indent (S level)
                ++ items l'
            end) l
      ++ open_sep indent level ++ "]"
  | VDict [] => "{}"
  | VDict d =>
      "{" ++ open_sep indent (S level)
      ++ (fix members (d : list (string * value)) : string :=
            match d with
            | [] => ""
            | [(k, x)] => quote k ++ ": " ++ dumps_at indent (S level) x
            | (k, x) :: d' =>
                quote k ++ ": " ++ dumps_at indent (S level) x
                ++ item_sep indent (S level) ++ members d'
            end) d
      ++ open_sep indent level ++ "}"
  end.

Definition ref_dumps (v : value) : string := dumps_at None 0 v.

Definition ref_dumps_indent (n : nat) (v : value) : string :=
  dumps_at (Some n) 0 v.

(** ** Decoding *)

Definition is_ws (c : ascii) : bool :=
  let n := nat_of_ascii c in
  ((n =? 32) || (n =? 9) || (n =? 10) || (n =? 13))%nat.

Fixpoint skip_ws (s : string) : string :=
  match s with
  | String c s' => if is_ws c then skip_ws s' else s
  | EmptyString => EmptyString
  end.

Definition hex_val (c : ascii) : option nat :=
  let n := nat_of_ascii c in
  if ((48 <=? n) && (n <=? 57))%nat then Some (n - 48)
  else if ((97 <=? n) && (n <=? 102))%nat then Some (n - 87)
  else if ((65 <=? n) && (n <=? 70))%nat then Some (n - 55)
  else None.

(** The four hex digits of a [\u] escape, as a character below 256. *)
Definition unicode_escape (a b c d : ascii) : option ascii :=
  match hex_val a, hex_val b, hex_val c, hex_val d with
  | Some 0, Some 0, Some x, Some y => Some (ascii_of_nat (16 * x + y))
  | _, _, _, _ => None
  end.

(** The characters of a string after its opening quote, up to and
    including the closing quote; the result is the decoded string and
    the rest of the input. *)
Fixpoint parse_string_body (s : string) : option (string * string) :=
  match s with
  | EmptyString => None
  | String c s' =>
      if (nat_of_ascii c =? 34)%nat then Some ("", s')
      else if (nat_of_ascii c =? 92)%nat then
        match s' with
        | String e s'' =>
            let continue (ch : ascii) (r : option (string * string)) :=
              match r with
              | Some (str, rest) => Some (String ch str, rest)
              | None => None
              end in
            match nat_of_ascii e with
            | 34 => continue (ascii_of_nat 34) (parse_string_body s'')
            | 92 => continue (ascii_of_nat 92) (parse_string_body s'')
            | 47 => continue (ascii_of_nat 47) (parse_string_body s'')
            | 98 => continue (ascii_of_nat 8) (parse_string_body s'')
            | 102 => continue (ascii_of_nat 12) (parse_string_body s'')
            | 110 => continue (ascii_of_nat 10) (parse_string_body s'')
            | 114 => continue (ascii_of_nat 13) (parse_string_body s'')
            | 116 => continue (ascii_of_nat 9) (parse_string_body s'')
            | 117 =>
                match s'' with
                | String h1 (String h2 (String h3 (String h4 s3))) =>
                    match unicode_escape h1 h2 h3 h4 with
                    | Some ch => continue ch (parse_string_body s3)
                    | None => None
                    end
                | _ => None
                end
            | _ => None
            end
        | EmptyString => None
        end
      else if (nat_of_ascii c <? 32)%nat then None
      else
        match parse_string_body s' with
        | Some (str, rest) => Some (String c str, rest)
        | None => None
        end
  end.

Fixpoint span_digits (s : string) : string * string :=
  match s with
  | String c s' =>
      if is_digit c then
        let (ds, rest) := span_digits s' in (String c ds, rest)
      else ("", s)
  | EmptyString => ("", "")
  end.

Fixpoint digits_value (ds : string) (acc : Z) : Z :=
  match ds with
  | String c ds' => digits_value ds' (10 * acc + Z.of_nat (nat_of_ascii c - 48))
  | EmptyString => acc
  end.

(** The integer part of a number: [0], or a digit from 1 to 9 followed
    by digits. *)
Definition parse_int_part (s : string) : option (string * string) :=
  match s with
  | String c s' =>
      if Ascii.eqb c "0" then Some ("0", s')
      else if is_digit c then
        let (ds, rest) := span_digits s' in Some (String c ds, rest)
      else None
  | EmptyString => None
  end.

(** An optional fraction: a dot followed by at least one digit. *)
Definition parse_frac (s : string) : string * string :=
  match s with
  | String "." s' =>
      match span_digits s' with
      | (EmptyString, _) => ("", s)
      | (ds, rest) => ("." ++ ds, rest)
      end
  | _ => ("", s)
  end.

(** An optional exponent: [e] or [E], an optional sign, at least one digit. *)
Definition parse_exp (s : string) : string * string :=
  match s with
  | String e s' =>
      if Ascii.eqb e "e" || Ascii.eqb e "E" then
        let (sign, s'') :=
          match s' with
          | String "+" r => ("+", r)
          | String "-" r => ("-", r)
          | _ => ("", s')
          end in
        match span_digits s'' with
        | (EmptyString, _) => ("", s)
        | (ds, rest) => (String e sign ++ ds, rest)
        end
      else ("", s)
  | EmptyString => ("", s)
  end.

Definition parse_number (s : string) : option (value * string) :=
  let (sign, s1) :=
    match s with
    | String "-" r => ("-", r)
    | _ => ("", s)
    end in
  match parse_int_part s1 with
  | None => None
  | Some (ds, s2) =>
      let (frac, s3) := parse_frac s2 in
      let (ex, s4) := parse_exp s3 in
      match frac, ex with
      | EmptyString, EmptyString =>
          let n := digits_value ds 0 in
          Some (VInt (if truthy_str sign then - n else n), s4)
      | _, _ => Some (VFloat (sign ++ ds ++ frac ++ ex), s4)
      end
  end.

(** [strip_prefix p s]: what follows [p] in [s], when [s] begins with [p]. *)
Fixpoint strip_prefix (p s : string) : option string :=
  match p, s with
  | EmptyString, _ => Some s
  | String a p', String b s' =>
      if Ascii.eqb a b then strip_prefix p' s' else None
  | _, _ => None
  end.

Definition parse_literal (s : string) : option (value * string) :=
  match strip_prefix "null" s with
  | Some r => Some (VNone, r)
  | None =>
  match strip_prefix "true" s with
  | Some r => Some (VBool true, r)
  | None =>
  match strip_prefix "false" s with
  | Some r => Some (VBool false, r)
  | None =>
  match strip_prefix "NaN" s with
  | Some r => Some (VFloat "NaN", r)
  | None =>
  match strip_prefix "Infinity" s with
  | Some r => Some (VFloat "Infinity", r)
  | None =>
  match strip_prefix "-Infinity" s with
  | Some r => Some (VFloat "-Infinity", r)
  | None => parse_number s
  end end end end end end.

(** A later pair with a key already present replaces its value in place,
    as building a [dict] from the pairs does. *)
Fixpoint dict_set (k : string) (v : value) (d : dict) : dict :=
  match d with
  | [] => [(k, v)]
  | (k', v') :: d' =>
      if String.eqb k k' then (k, v) :: d' else (k', v') :: dict_set k v d'
  end.

Fixpoint parse_value (fuel : nat) (s : string) : option (value * string) :=
  match fuel with
  | O => None
  | S f =>
      match skip_ws s with
      | String c rest =>
          if (nat_of_ascii c =? 34)%nat then
            match parse_string_body rest with
            | Some (str, r) => Some (VStr str, r)
            | None => None
            end
          else if Ascii.eqb c "[" then
            match skip_ws rest with
            | String "]" r => Some (VList [], r)
            | _ => parse_elements f rest []
            end
          else if Ascii.eqb c "{" then
            match skip_ws rest with
            | String "}" r => Some (VDict [], r)
            | _ => parse_members f rest []
            end
          else parse_literal (String c rest)
      | EmptyString => None
      end
  end

with parse_elements (fuel : nat) (s : string) (acc : list value)
  : option (value * string) :=
  match fuel with
  | O => None
  | S f =>
      match parse_value f s with
      | Some (v, r) =>
          match skip_ws r with
          | String "," r' => parse_elements f r' (acc ++ [v])
          | String "]" r' => Some (VList (acc ++ [v]), r')
          | _ => None
          end
      | None => None
      end
  end

with parse_members (fuel : nat) (s : string) (acc : dict)
  : option (value * string) :=
  match fuel with
  | O => None
  | S f =>
      match skip_ws s with
      | String q s1 =>
          if (nat_of_ascii q =? 34)%nat then
            match parse_string_body s1 with
            | Some (k, s2) =>
                match skip_ws s2 with
                | String ":" s3 =>
                    match parse_value f s3 with
                    | Some (v, r) =>
                        match skip_ws r with
                        | String "," r' => parse_members f r' (dict_set k v acc)
                        | String "}" r' => Some (VDict (dict_set k v acc), r')
                        | _ => None
                        end
                    | None => None
                    end
                | _ => None
                end
            | None => None
            end
          else None
      | EmptyString => None
      end
  end.

(** [json.loads]: one value, blanks around it, and nothing else. *)
Definition ref_loads (s : string) : option value :=
  match parse_value (2 * String.length s + 2) s with
  | Some (v, rest) =>
      match skip_ws rest with
      | EmptyString => Some v
      | _ => None
      end
  | None => None
  end.

#[export] Instance ref_json : Json := {|
  json_dumps := ref_dumps;
  json_dumps_indent := ref_dumps_indent;
  json_loads := ref_loads
|}.

End RefJson.


(** * Notions used by the statements *)

Section Notions.

Context {J : Json}.
Variable E : Env.

(** The two requests the client can send for a message. *)
Definition primary_request (user_message : value) : request :=
  {| url := intl_url; headers := ai_headers E;
     json_payload := ai_data user_message; timeout := 30 |}.

Definition retry_request (user_message : value) : request :=
  {| url := regional_url; headers := ai_headers E;
     json_payload := ai_data user_message; timeout := 30 |}.

(** The decoded answer [v] carries a text: it is an object whose [output]
    is an object with a [text] field of value [t]. *)
Definition output_text_is (v : value) (t : value) : Prop :=
  exists d o, v = VDict d /\ lookup "output" d = Some (VDict o)
              /\ lookup "text" o = Some t.

(** Every 200 answer of the network that carries a text carries a string. *)
Definition upstream_text_is_str : Prop :=
  forall w rq r v t,
    network E w rq = Responds r -> status_code r = 200%Z ->
    json_loads (text r) = Some v -> output_text_is v t -> is_str t = true.

(** The effective method of an event: [event.get('httpMethod', 'GET')]. *)
Definition http_method (event : dict) : value :=
  dict_get "httpMethod" (VStr "GET") event.

(** The object every chat answer serialises: a [response] and a
    [timestamp]. *)
Definition chat_object (r ts : string) : value :=
  VDict [ ("response", VStr r); ("timestamp", VStr ts) ].

(** The law of [json] used for the bodies of chat answers: decoding the
    encoding of a chat object gives the object back. *)
Definition chat_roundtrip : Prop :=
  forall r ts, json_loads (json_dumps (chat_object r ts)) = Some (chat_object r ts).

(** The answer the handler gives to a message with no text: status 200
    and the debug text in a chat object. *)
Definition debug_result (event : dict) : HttpResult :=
  {| statusCode := 200;
     res_headers := post_headers;
     res_body := json_dumps (chat_response E (VStr (debug_response event))) |}.

End Notions.

(** Every number of a range has the shape [pat] once padded to [w]
    digits; decided by running through the range. *)
Definition range_matches (pat : string) (w : nat) (lo len : N) : bool :=
  forallb (fun k => matches pat (zpad w (lo + N.of_nat k)))
          (seq 0 (N.to_nat len)).

(** * Notions used by the further properties *)

Section Outcomes.

Context {J : Json}.
Variable E : Env.

(** The chat answer that carries the response [v]. *)
Definition chat_result (v : value) : HttpResult :=
  {| statusCode := 200;
     res_headers := post_headers;
     res_body := json_dumps (chat_response E v) |}.

(** The handler answers [event] with what the AI client returns for the
    message [m] and the user identifier [uid]. *)
Definition answers_message (event : dict) (ctx : value) (w : world)
    (m : string) (uid : value) : Prop :=
  exists v w',
    get_ai_response E (VStr m) uid w = (Ok v, w')
    /\ handler E event ctx w = (Ok (Some (chat_result v)), w').

(** The five fixed texts of the AI client. *)
Definition fixed_texts : list string :=
  [ service_unavailable; canned_suggestion; api_key_trouble;
    technical_difficulties; exception_fallback ].

(** A decoded 200 answer with no text to return: a mapping with no
    [output], or one whose [output] is a mapping with no [text]. *)
Definition lacks_text (v : value) : Prop :=
  exists d, v = VDict d
    /\ (lookup "output" d = None
        \/ exists o, lookup "output" d = Some (VDict o) /\ lookup "text" o = None).

(** The reading of a 200 answer, as both branches of the client do it:
    the text of the decoded answer, or [dflt] when it has none. *)
Definition read_answer (r : response) (dflt : M value) : M value :=
  response_data <- response_json r ;;
  c <- has_output_text response_data ;;
  if c : bool then get_output_text response_data else dflt.

(** Where a value returned by the client can come from: the [text] of a
    200 answer to one of its two requests. *)
Definition from_upstream (um v : value) : Prop :=
  exists w0 rq r x,
    (rq = primary_request E um \/ rq = retry_request E um)
    /\ network E w0 rq = Responds r /\ status_code r = 200%Z
    /\ json_loads (text r) = Some x /\ output_text_is x v.

Definition is_fixed_text (v : value) : Prop :=
  exists s, v = VStr s /\ In s fixed_texts.

(** A value that is no container: [None], a boolean or a number. *)
Definition is_scalar (v : value) : bool :=
  match v with
  | VNone | VBool _ | VInt _ | VFloat _ => true
  | _ => false
  end.

(** What the shim writes for a result of the handler. *)
Definition wire_of (r : HttpResult) : wire_response :=
  {| wire_status := statusCode r;
     wire_headers := res_headers r;
     wire_body := res_body r |}.

End Outcomes.

(** * Notions used by the statements on the logged handler *)

Section LoggedNotions.

Context {J : Json}.
Variable R : Runtime.
Variable E : Env.

(** Line 24 runs through: [json.dumps] takes the event and stdout its
    text. *)
Definition logs_event (event : dict) : bool :=
  match dumps_raises R (VDict event) with
  | Some _ => false
  | None => Logged.stdout_encodes R (json_dumps (VDict event))
  end.

(** Lines 35-68: the body of a POST, found and decoded. *)
Definition read_body (event : dict) : M value :=
  body_str <- Logged.get_body_str R event ;;
  Logged.parse_body R event body_str.

(** The logged handler answers [event] with what the AI client returns
    for the message [m] and the user identifier [uid]. *)
Definition answers_logged (event : dict) (ctx : value) (w : world)
    (m : string) (uid : value) : Prop :=
  exists v w',
    get_ai_response E (VStr m) uid w = (Ok v, w')
    /\ Logged.handler R E event ctx w = (Ok (Some (chat_result E v)), w').

(** The request that follows the primary one for a message: the retry,
    when the primary request is answered with a status other than 200. *)
Definition retry_of (w : world) (um : value) : list request :=
  match network E w (primary_request E um) with
  | Responds r => if (status_code r =? 200)%Z then [] else [retry_request E um]
  | Fails _ => []
  end.

(** The body holds a [message] key: the first branch of line 75. *)
Definition has_message (body : value) : bool :=
  match py_in "message" body with Ok true => true | _ => false end.

(** The error of the first print that fails on an extracted message and
    user identifier: that of line 78 on the direct path when the message
    is refused, else that of line 89. *)
Definition refused_print (body um uid : value) : exn :=
  UnicodeEncodeError
    (if has_message body && negb (Logged.shows R um)
     then codec_message R 78 [um]
     else codec_message R 89 [um; uid]).

(** The prints never fail and [json] fails by [JSONDecodeError] only. *)
Definition quiet : Prop :=
  (forall c, encodable R c = true)
  /\ (forall s, exists msg, loads_error R s = JSONDecodeError msg)
  /\ (forall v, dumps_raises R v = None).

End LoggedNotions.

(** * Fixed events, keys, clocks and networks

    The concrete runs at the end of the file use the reference [json]
    implementation and these inputs. *)

Import RefJson.

Definition noon : datetime :=
  {| year := 2025; month := 6; day := 1; hour := 12; minute := 30; second := 5 |}.

(** An HTTP answer whose body is the JSON text of [v]. *)
Definition answer (status : Z) (v : value) : outcome :=
  Responds {| status_code := status; text := ref_dumps v |}.

(** A network that answers by endpoint: [primary] on the international
    one, [regional] on the other. *)
Definition by_endpoint (primary regional : outcome) (w : world) (rq : request)
  : outcome :=
  if contains "dashscope-intl" (url rq) then primary else regional.

Definition env (key : option string) (net : world -> request -> outcome) : Env :=
  {| MODEL_STUDIO_API_KEY := key; network := net; now := noon |}.

Definition a_key : option string := Some "sk-0123456789abcdef".

Definition unreachable : outcome := Fails (RequestException "connection refused").

(** The answer of the generation API that carries the text [t]. *)
Definition with_text (t : value) : value :=
  VDict [ ("output", VDict [ ("text", t) ]) ].

Definition error_answer (code : string) : value :=
  VDict [ ("code", VStr code); ("message", VStr "request failed") ].

(** A POST whose [body] is the JSON text of [v]. *)
Definition post_event (v : value) : dict :=
  [ ("httpMethod", VStr "POST"); ("body", VStr (ref_dumps v)) ].

Definition chat_request (m u : string) : value :=
  VDict [ ("message", VStr m); ("user_id", VStr u) ].

Definition lunch : value := VStr "plan my lunch".
Definition user1 : value := VStr "u1".

(** The key is set and both endpoints answer a text. *)
Definition env_ok : Env :=
  env a_key (by_endpoint (answer 200 (with_text (VStr "Try a lentil soup.")))
                         (answer 200 (with_text (VStr "Try a bean stew.")))).

(** No key. *)
Definition env_no_key : Env := env None (by_endpoint unreachable unreachable).

(** The primary endpoint answers 200 with a [text] that is [null]. *)
Definition env_null_text : Env :=
  env a_key (by_endpoint (answer 200 (with_text VNone)) unreachable).

(** The primary endpoint answers 401, the regional one 500. *)
Definition env_401_500 : Env :=
  env a_key (by_endpoint (answer 401 (error_answer "InvalidApiKey"))
                         (answer 500 (error_answer "InternalError"))).

(** Both endpoints answer 401. *)
Definition env_401_401 : Env :=
  env a_key (by_endpoint (answer 401 (error_answer "InvalidApiKey"))
                         (answer 401 (error_answer "InvalidApiKey"))).

(** The primary endpoint answers 503, the regional one 200 with a text. *)
Definition env_503_200 : Env :=
  env a_key (by_endpoint (answer 503 (error_answer "ServiceUnavailable"))
                         (answer 200 (with_text (VStr "Try a bean stew.")))).

(** A well-formed POST. *)
Definition lunch_event : dict := post_event (chat_request "plan my lunch" "u1").

(** A POST with a message beside an empty body. *)
Definition empty_body_event : dict :=
  [ ("httpMethod", VStr "POST"); ("body", VStr ""); ("message", lunch) ].

(** A POST whose body is not JSON. *)
Definition garbled_event : dict :=
  [ ("httpMethod", VStr "POST"); ("body", VStr "plan my lunch") ].

(** A POST whose body is an object with no message. *)
Definition no_message_event : dict := post_event (VDict [ ("user_id", VStr "u1") ]).

(** The key is set and nothing answers. *)
Definition env_down : Env := env a_key (by_endpoint unreachable unreachable).

(** The primary endpoint answers 200 with an [output] that has no text. *)
Definition env_no_text : Env :=
  env a_key (by_endpoint
               (answer 200 (VDict [ ("output",
                                      VDict [ ("finish_reason", VStr "stop") ]) ]))
               unreachable).

(** The primary endpoint answers 200 with a body that is not JSON. *)
Definition env_not_json : Env :=
  env a_key (by_endpoint
               (Responds {| status_code := 200; text := "<html>busy</html>" |})
               unreachable).

(** The primary endpoint answers 503, the regional one 200 without text. *)
Definition env_503_no_text : Env :=
  env a_key (by_endpoint (answer 503 (error_answer "ServiceUnavailable"))
                         (answer 200 (error_answer "Throttling"))).

(** A POST whose body is a mapping that holds the request as a JSON text
    under [body]. *)
Definition nested_event : dict :=
  [ ("httpMethod", VStr "POST");
    ("body", VDict [ ("body", VStr (ref_dumps (chat_request "plan my dinner" "u2"))) ]) ].


(** A POST whose body is a number, not a text. *)
Definition number_event : dict :=
  [ ("httpMethod", VStr "POST"); ("body", VInt 7) ].

(** A POST whose body is already a mapping, with no user identifier. *)
Definition mapping_event : dict :=
  [ ("httpMethod", VStr "POST");
    ("body", VDict [ ("message", lunch); ("lang", VStr "en") ]) ].

(** An event with no method that carries a message all the same. *)
Definition no_method_event : dict :=
  [ ("body", VStr (ref_dumps (chat_request "plan my lunch" "u1"))) ].

Definition options_event : dict :=
  [ ("httpMethod", VStr "OPTIONS"); ("body", VStr "ignored") ].

(** ** Runtimes *)

(** A run under UTF-8 within the limits of the interpreter: stdout
    encodes every character of the model, [json.loads] fails by
    [JSONDecodeError] only and [json.dumps] takes every value.  The
    message of the [JSONDecodeError] is the one of a text that is no JSON
    value from its first character on, as the texts are that fail in the
    runs below. *)
Definition utf8 : Runtime :=
  {| encodable := fun _ => true;
     codec_message := fun _ _ => "surrogates not allowed";
     loads_error :=
       fun _ => JSONDecodeError "Expecting value: line 1 column 1 (char 0)";
     dumps_raises := fun _ => None |}.

(** A character that stands for a lone surrogate, and a run under UTF-8
    in which stdout refuses it. *)
Definition surrogate : string := String (ascii_of_nat 237) "".

Definition refusing : Runtime :=
  {| encodable := fun c => negb (Ascii.eqb c (ascii_of_nat 237));
     codec_message := fun _ _ => "surrogates not allowed";
     loads_error :=
       fun _ => JSONDecodeError "Expecting value: line 1 column 1 (char 0)";
     dumps_raises := fun _ => None |}.

(** [s] holds more than [n] decimal digits in a row; [run] counts the
    digits just read. *)
Fixpoint long_digits (n run : nat) (s : string) : bool :=
  match s with
  | EmptyString => false
  | String c s' =>
      if is_digit c then (n <=? run)%nat || long_digits n (S run) s'
      else long_digits n 0 s'
  end.

(** The reference decoder under the limit of 4300 digits that CPython
    sets on the conversion of an integer literal. *)
Definition limit_json : Json := {|
  json_dumps := ref_dumps;
  json_dumps_indent := ref_dumps_indent;
  json_loads := fun s => if long_digits 4300 0 s then None else ref_loads s
|}.

(** What the conversion of a literal of 4301 digits raises. *)
Definition digits_error : exn :=
  ValueError "Exceeds the limit (4300 digits) for integer string conversion: value has 4301 digits; use sys.set_int_max_str_digits() to increase the limit".

(** A run under the digits limit. *)
Definition int_limit : Runtime :=
  {| encodable := fun _ => true;
     codec_message := fun _ _ => "surrogates not allowed";
     loads_error :=
       fun s =>
         if long_digits 4300 0 s then digits_error
         else JSONDecodeError "Expecting value: line 1 column 1 (char 0)";
     dumps_raises := fun _ => None |}.

(** The literal of an integer of 4301 digits. *)
Definition long_literal : string :=
  string_of_list_ascii (repeat "9"%char 4301).

(** A POST whose body is that literal. *)
Definition long_literal_event : dict :=
  [ ("httpMethod", VStr "POST"); ("body", VStr long_literal) ].

(** A well-formed POST whose message holds the character that stands for
    a lone surrogate. *)
Definition surrogate_message_event : dict :=
  post_event (chat_request ("plan my lunch " ++ surrogate) "u1").

(** A well-formed POST with a blank message and such a user identifier. *)
Definition surrogate_user_event : dict :=
  post_event (chat_request " " surrogate).

(** A POST whose body is a mapping with such a message. *)
Definition surrogate_mapping_event : dict :=
  [ ("httpMethod", VStr "POST");
    ("body", VDict [ ("message", VStr ("plan my lunch " ++ surrogate)) ]) ].

(** A POST whose body is the JSON text of a string that holds such a
    character. *)
Definition surrogate_string_event : dict := post_event (VStr surrogate).

(** * Proofs *)

(** Unfolds the client down to the network oracle. *)
Ltac run :=
  unfold get_ai_response, get_ai_response_try, response_json, status_fallback,
    requests_post, try_except, bind, lift, raise, ret.

(** Unfolds the handler down to message extraction and the client. *)
Ltac run_handler :=
  unfold handler, handler_try, handler_post, respond, try_except, bind, lift,
    raise, ret.

(** * The timestamp *)

Lemma matches_app (p1 p2 s1 s2 : string) :
  matches p1 s1 = true -> matches p2 s2 = true ->
  matches (p1 ++ p2) (s1 ++ s2) = true.
Proof.
  revert s1. induction p1 as [ | c p1 IH]; intros [ | a s1]; simpl;
    try discriminate; auto.
  intros H H2. apply andb_true_iff in H as [Hc H1].
  rewrite Hc. simpl. now apply IH.
Qed.

Lemma range_matches_spec (pat : string) (w : nat) (lo len n : N) :
  range_matches pat w lo len = true ->
  (lo <= n < lo + len)%N ->
  matches pat (zpad w n) = true.
Proof.
  unfold range_matches. rewrite forallb_forall. intros H Hn.
  replace n with (lo + N.of_nat (N.to_nat (n - lo)))%N by lia.
  apply H, in_seq. lia.
Qed.

Lemma two_digits (n : N) : (n <= 99)%N -> matches "dd" (zpad 2 n) = true.
Proof.
  intros H. apply (range_matches_spec "dd" 2 0 100); [now vm_compute | lia].
Qed.

Lemma four_digits (n : N) :
  (1000 <= n <= 9999)%N -> matches "dddd" (zpad 4 n) = true.
Proof.
  intros H. apply (range_matches_spec "dddd" 4 1000 9000); [now vm_compute | lia].
Qed.

(** The timestamp of a valid date and time has the format
    YYYY-MM-DD HH:MM:SS. *)
Lemma strftime_format (t : datetime) :
  valid_datetime t -> is_timestamp (strftime t) = true.
Proof.
  intros (Hy & Hm & Hd & Hh & Hmi & Hs).
  unfold is_timestamp, strftime.
  change "dddd-dd-dd dd:dd:dd"
    with ("dddd" ++ "-" ++ "dd" ++ "-" ++ "dd" ++ " " ++ "dd" ++ ":" ++ "dd"
          ++ ":" ++ "dd").
  repeat (apply matches_app;
          [first [apply four_digits; lia | apply two_digits; lia | reflexivity] | ]).
  apply two_digits; lia.
Qed.

(** * Properties of the AI client *)

Section AIClient.

Context {J : Json}.
Variable E : Env.

Lemma intl_url_is_intl : contains "dashscope-intl" intl_url = true.
Proof. reflexivity. Qed.

Lemma has_output_text_true (v t : value) (w : world) :
  output_text_is v t -> has_output_text v w = (Ok true, w).
Proof.
  intros (d & o & -> & Hd & Ho).
  unfold has_output_text, bind, lift, ret, py_in, py_getitem, has_key.
  rewrite Hd. now rewrite Ho.
Qed.

Lemma get_output_text_ok (v t : value) (w : world) :
  output_text_is v t -> get_output_text v w = (Ok t, w).
Proof.
  intros (d & o & -> & Hd & Ho).
  unfold get_output_text, bind, lift, py_getitem.
  rewrite Hd. now rewrite Ho.
Qed.

(** The two helpers read the decoded answer and send nothing. *)
Lemma has_output_text_world (v : value) (w : world) :
  snd (has_output_text v w) = w.
Proof.
  unfold has_output_text, bind, lift, ret.
  destruct (py_in "output" v) as [[] | ]; simpl; auto.
  destruct (py_getitem v "output"); simpl; auto.
Qed.

Lemma get_output_text_world (v : value) (w : world) :
  snd (get_output_text v w) = w.
Proof.
  unfold get_output_text, bind, lift.
  destruct (py_getitem v "output"); simpl; auto.
Qed.

(** A text obtained from a decoded answer is the [text] field of its
    [output] object. *)
Lemma get_output_text_inv (v t : value) (w w' : world) :
  get_output_text v w = (Ok t, w') -> output_text_is v t.
Proof.
  unfold get_output_text, bind, lift.
  destruct v; simpl; try discriminate.
  destruct (lookup "output" d) as [o | ] eqn:Hd; [ | discriminate].
  destruct o; simpl; try discriminate.
  destruct (lookup "text" d0) as [x | ] eqn:Ho; [ | discriminate].
  intros H. injection H as -> _. now exists d, d0.
Qed.

Lemma no_api_key_cases :
  MODEL_STUDIO_API_KEY E = None \/ MODEL_STUDIO_API_KEY E = Some "" ->
  no_api_key E = true.
Proof. unfold no_api_key. now intros [-> | ->]. Qed.

(** The client always returns, whatever the network does. *)
Lemma get_ai_response_returns (um uid : value) (w : world) :
  exists v w', get_ai_response E um uid w = (Ok v, w').
Proof.
  unfold get_ai_response, try_except, ret.
  destruct (get_ai_response_try E um uid w) as [[v | e] w']; eauto.
Qed.

(** An exception inside the [try] block becomes the third fallback. *)
Lemma get_ai_response_caught (um uid : value) (w w' : world) (e : exn) :
  get_ai_response_try E um uid w = (Raise e, w') ->
  get_ai_response E um uid w = (Ok (VStr exception_fallback), w').
Proof. unfold get_ai_response, try_except. now intros ->. Qed.

(** The trace grows by the requests sent, and at most two are sent. *)
Lemma get_ai_response_calls (um uid : value) (w : world) :
  exists calls, snd (get_ai_response E um uid w) = (w ++ calls)%list
                /\ (List.length calls <= 2)%nat.
Proof.
  run. destruct (no_api_key E).
  { exists []. rewrite app_nil_r. simpl. auto. }
  rewrite intl_url_is_intl.
  set (rq1 := {| url := intl_url |}). set (rq2 := {| url := regional_url |}).
  assert (Hone : (w ++ [rq1])%list = (w ++ [rq1])%list /\ (1 <= 2)%nat)
    by (split; auto).
  assert (Htwo : ((w ++ [rq1]) ++ [rq2])%list = (w ++ [rq1; rq2])%list
                 /\ (2 <= 2)%nat)
    by (rewrite <- app_assoc; split; auto).
  destruct (network E w rq1) as [r1 | e1]; [ | exists [rq1]; exact Hone].
  set (w1 := (w ++ [rq1])%list) in *.
  destruct (status_code r1 =? 200)%Z.
  - exists [rq1].
    destruct (json_loads (text r1)) as [v | ]; [ | exact Hone].
    pose proof (has_output_text_world v w1) as Hh.
    destruct (has_output_text v w1) as [[[] | ] wh]; simpl in Hh; subst wh;
      try exact Hone.
    pose proof (get_output_text_world v w1) as Hg.
    destruct (get_output_text v w1) as [[] wg]; simpl in Hg; subst wg;
      exact Hone.
  - exists [rq1; rq2].
    destruct (network E w1 rq2) as [r2 | e2]; [ | exact Htwo].
    set (w2 := (w1 ++ [rq2])%list) in *.
    destruct (status_code r2 =? 200)%Z.
    + destruct (json_loads (text r2)) as [v | ]; [ | exact Htwo].
      pose proof (has_output_text_world v w2) as Hh.
      destruct (has_output_text v w2) as [[[] | ] wh]; simpl in Hh; subst wh.
      * pose proof (get_output_text_world v w2) as Hg.
        destruct (get_output_text v w2) as [[] wg]; simpl in Hg; subst wg;
          exact Htwo.
      * destruct (status_code r2 =? 401)%Z; exact Htwo.
      * exact Htwo.
    + destruct (status_code r2 =? 401)%Z; exact Htwo.
Qed.

(** The text of the [except] clause is none of the other four fixed
    texts of the client. *)
Lemma exception_fallback_distinct :
  exception_fallback <> service_unavailable
  /\ exception_fallback <> canned_suggestion
  /\ exception_fallback <> api_key_trouble
  /\ exception_fallback <> technical_difficulties.
Proof. repeat split; discriminate. Qed.

(** C4. With no API key configured (the variable unset, or set to the
    empty string) the client answers the fixed service-unavailable
    message for every message, and the trace of outbound requests is left
    as it was: no network call is made. *)
Theorem no_api_key_no_network_call (um uid : value) (w : world) :
  MODEL_STUDIO_API_KEY E = None \/ MODEL_STUDIO_API_KEY E = Some "" ->
  get_ai_response E um uid w = (Ok (VStr service_unavailable), w).
Proof.
  intros H. apply no_api_key_cases in H.
  run. now rewrite H.
Qed.

(** C5, as amended. When the primary endpoint answers 401 and the
    regional retry that follows also answers 401, the client returns the
    fixed API-key-trouble text: the fallback is chosen by the status of the
    response received last. *)
Theorem unauthorized_twice_api_key_trouble (um uid : value) (w : world)
    (r1 r2 : response) :
  no_api_key E = false ->
  network E w (primary_request E um) = Responds r1 ->
  status_code r1 = 401%Z ->
  network E (w ++ [primary_request E um]) (retry_request E um) = Responds r2 ->
  status_code r2 = 401%Z ->
  fst (get_ai_response E um uid w) = Ok (VStr api_key_trouble).
Proof.
  intros Hk H1 S1 H2 S2.
  assert (N1 : (status_code r1 =? 200)%Z = false) by now rewrite S1.
  assert (N2 : (status_code r2 =? 200)%Z = false) by now rewrite S2.
  assert (A2 : (status_code r2 =? 401)%Z = true) by now rewrite S2.
  run. rewrite Hk.
  fold (primary_request E um). rewrite H1, N1, intl_url_is_intl.
  fold (retry_request E um). cbv beta iota.
  now rewrite H2, N2, A2.
Qed.

(** C6. When the primary request is answered with a status other than
    200, the client sends exactly one more request, to the regional
    endpoint, with the headers, payload and timeout of the first; the trace
    grows by these two requests and no other.  If that retry is answered
    200 with a text in its body, the text is what the client returns.  On
    no run at all does the client send more than two requests. *)
Theorem single_retry_on_regional_endpoint (um uid : value) (w : world)
    (r1 : response) :
  no_api_key E = false ->
  network E w (primary_request E um) = Responds r1 ->
  status_code r1 <> 200%Z ->
  snd (get_ai_response E um uid w)
    = (w ++ [primary_request E um; retry_request E um])%list
  /\ url (primary_request E um) = intl_url
  /\ url (retry_request E um) = regional_url
  /\ headers (retry_request E um) = headers (primary_request E um)
  /\ json_payload (retry_request E um) = json_payload (primary_request E um)
  /\ (forall r2 v t,
        network E (w ++ [primary_request E um]) (retry_request E um) = Responds r2 ->
        status_code r2 = 200%Z ->
        json_loads (text r2) = Some v ->
        output_text_is v t ->
        fst (get_ai_response E um uid w) = Ok t)
  /\ (forall um' uid' w0,
        exists calls,
          snd (get_ai_response E um' uid' w0) = (w0 ++ calls)%list
          /\ (List.length calls <= 2)%nat).
Proof.
  intros Hk H1 S1. apply Z.eqb_neq in S1.
  repeat split; [ | | apply get_ai_response_calls].
  - destruct (get_ai_response_calls um uid w) as (calls & Hc & _).
    revert Hc. run. rewrite Hk.
    fold (primary_request E um). rewrite H1, S1, intl_url_is_intl.
    fold (retry_request E um). cbv beta iota.
    set (w1 := (w ++ [primary_request E um])%list).
    assert (Hw : (w1 ++ [retry_request E um])%list
                 = (w ++ [primary_request E um; retry_request E um])%list)
      by (unfold w1; now rewrite <- app_assoc).
    destruct (network E w1 (retry_request E um)) as [r2 | e2]; [ | intros _; exact Hw].
    set (w2 := (w1 ++ [retry_request E um])%list) in *.
    destruct (status_code r2 =? 200)%Z.
    + destruct (json_loads (text r2)) as [v | ]; [ | intros _; exact Hw].
      pose proof (has_output_text_world v w2) as Hh.
      destruct (has_output_text v w2) as [[[] | ] wh]; simpl in Hh; subst wh.
      * pose proof (get_output_text_world v w2) as Hg.
        destruct (get_output_text v w2) as [[] wg]; simpl in Hg; subst wg;
          intros _; exact Hw.
      * destruct (status_code r2 =? 401)%Z; intros _; exact Hw.
      * intros _; exact Hw.
    + destruct (status_code r2 =? 401)%Z; intros _; exact Hw.
  - intros r2 v t H2 S2 Hv Ht. run. rewrite Hk.
    assert (A2 : (status_code r2 =? 200)%Z = true) by now rewrite S2.
    fold (primary_request E um). rewrite H1, S1, intl_url_is_intl.
    fold (retry_request E um). cbv beta iota. rewrite H2, A2, Hv.
    rewrite (has_output_text_true v t) by exact Ht.
    now rewrite (get_output_text_ok v t) by exact Ht.
Qed.

(** With texts that are strings, the client returns a string. *)
Lemma get_ai_response_string (um uid : value) (w : world) :
  upstream_text_is_str E ->
  exists s w', get_ai_response E um uid w = (Ok (VStr s), w').
Proof.
  intros Hup. run. destruct (no_api_key E); [eauto | ].
  rewrite intl_url_is_intl.
  set (rq1 := {| url := intl_url |}). set (rq2 := {| url := regional_url |}).
  destruct (network E w rq1) as [r1 | e1] eqn:H1; [ | eauto].
  set (w1 := (w ++ [rq1])%list) in *.
  destruct (status_code r1 =? 200)%Z eqn:S1.
  - apply Z.eqb_eq in S1.
    destruct (json_loads (text r1)) as [v | ] eqn:Hv; [ | eauto].
    destruct (has_output_text v w1) as [[[] | ] wh]; eauto.
    destruct (get_output_text v wh) as [[t | ] wg] eqn:Hg; eauto.
    apply get_output_text_inv in Hg.
    pose proof (Hup _ _ _ _ _ H1 S1 Hv Hg) as Hs.
    destruct t; try discriminate. eauto.
  - destruct (network E w1 rq2) as [r2 | e2] eqn:H2; [ | eauto].
    destruct (status_code r2 =? 200)%Z eqn:S2.
    + apply Z.eqb_eq in S2.
      destruct (json_loads (text r2)) as [v | ] eqn:Hv; [ | eauto].
      destruct (has_output_text v _) as [[[] | ] wh]; eauto.
      * destruct (get_output_text v wh) as [[t | ] wg] eqn:Hg; eauto.
        apply get_output_text_inv in Hg.
        pose proof (Hup _ _ _ _ _ H2 S2 Hv Hg) as Hs.
        destruct t; try discriminate. eauto.
      * destruct (status_code r2 =? 401)%Z; eauto.
    + destruct (status_code r2 =? 401)%Z; eauto.
Qed.

(** C3, as amended. The client never raises: it returns a value for every
    message, user identifier and network; an exception raised inside its
    [try] block is turned into the third fixed fallback text, which
    differs from each of the other fixed texts.  What it returns is a
    string whenever every text carried by a 200 answer of the network is a
    string. *)
Theorem get_ai_response_never_raises (um uid : value) (w : world) :
  (exists v w', get_ai_response E um uid w = (Ok v, w'))
  /\ (forall e w', get_ai_response_try E um uid w = (Raise e, w') ->
        get_ai_response E um uid w = (Ok (VStr exception_fallback), w'))
  /\ (exception_fallback <> service_unavailable
      /\ exception_fallback <> canned_suggestion
      /\ exception_fallback <> api_key_trouble
      /\ exception_fallback <> technical_difficulties)
  /\ (upstream_text_is_str E ->
        exists s w', get_ai_response E um uid w = (Ok (VStr s), w')).
Proof.
  split; [apply get_ai_response_returns | ].
  split; [intros e w'; apply get_ai_response_caught | ].
  split; [exact exception_fallback_distinct | ].
  apply get_ai_response_string.
Qed.

End AIClient.

(** * Properties of the event handler *)

Section Handler.

Context {J : Json}.
Variable E : Env.

Lemma eq_str_true (v : value) (s : string) :
  eq_str v s = true <-> v = VStr s.
Proof.
  destruct v; simpl; try (split; [discriminate | intros H; discriminate H]).
  rewrite String.eqb_eq. split; [now intros -> | now intros [= ->]].
Qed.

Lemma eq_str_false (v : value) (s : string) :
  eq_str v s = false <-> v <> VStr s.
Proof.
  rewrite <- eq_str_true. destruct (eq_str v s); split; congruence.
Qed.

Lemma is_post (event : dict) :
  lookup "httpMethod" event = Some (VStr "POST") ->
  eq_str (dict_get "httpMethod" (VStr "GET") event) "POST" = true.
Proof. unfold dict_get. now intros ->. Qed.

(** Message extraction sends nothing: it leaves the trace as it is. *)
Lemma extract_message_world (body : value) (w : world) :
  snd (extract_message body w) = w.
Proof.
  unfold extract_message, bind, lift, ret.
  destruct (py_in "message" body) as [[] | ]; simpl; auto.
  - destruct (py_getitem body "message"); simpl; auto.
    destruct (py_get body "user_id" (VStr "anonymous")); simpl; auto.
  - destruct (py_in "body" body) as [[] | ]; simpl; auto.
    destruct (py_getitem body "body") as [[] | ]; simpl; auto.
Qed.

(** A body that is a mapping with a [message] key yields that message and
    the [user_id] of the mapping, or ["anonymous"]. *)
Lemma extract_message_direct (d : dict) (m : value) (w : world) :
  lookup "message" d = Some m ->
  extract_message (VDict d) w
  = (Ok (m, dict_get "user_id" (VStr "anonymous") d), w).
Proof.
  intros H. unfold extract_message, bind, lift, ret, py_in, py_getitem, py_get,
    has_key.
  now rewrite H.
Qed.

(** The handler never raises. *)
Lemma handler_returns (event : dict) (ctx : value) (w : world) :
  exists r w', handler E event ctx w = (Ok r, w').
Proof.
  unfold handler, try_except, ret.
  destruct (handler_try E event w) as [[r | e] w']; eauto.
Qed.

(** What [handler] makes of an exception in its [try] block. *)
Lemma handler_caught (event : dict) (ctx : value) (w w' : world) (e : exn) :
  handler_try E event w = (Raise e, w') ->
  handler E event ctx w = (Ok (Some (error_result E e)), w').
Proof. unfold handler, try_except, ret. now intros ->. Qed.

(** The answer to a POST either comes from [respond], with status 200, or
    is an exception. *)
Lemma respond_status (event : dict) (um uid : value) (w w' : world)
    (r : option HttpResult) :
  respond E event um uid w = (Ok r, w') ->
  exists res, r = Some res /\ statusCode res = 200%Z.
Proof.
  unfold respond, bind, lift, ret.
  destruct (py_strip um) as [s | ]; [ | discriminate].
  destruct (truthy_str s).
  - destruct (get_ai_response E um uid w) as [[v | ] w1]; [ | discriminate].
    intros [= <- _]. eauto.
  - intros [= <- _]. eauto.
Qed.

Lemma handler_post_status (event : dict) (w w' : world)
    (r : option HttpResult) :
  handler_post E event w = (Ok r, w') ->
  exists res, r = Some res /\ statusCode res = 200%Z.
Proof.
  unfold handler_post, bind.
  destruct (extract_message _ w) as [[[um uid] | ] w1]; [ | discriminate].
  apply respond_status.
Qed.


(** C1, as amended. The handler never raises: for every event it returns
    either an HTTP result or, only when the method is none of GET, POST
    and OPTIONS, no value.  An exception raised while the event is
    processed is turned into the result with status 500, the CORS header
    and the JSON body with the fields [response], the text
    "Sorry, I encountered an error: " followed by the message of the
    exception, and [timestamp]. *)
Theorem handler_never_raises (event : dict) (ctx : value) (w : world) :
  (exists r w', handler E event ctx w = (Ok r, w'))
  /\ (forall w', handler E event ctx w = (Ok None, w') ->
        http_method event <> VStr "GET"
        /\ http_method event <> VStr "POST"
        /\ http_method event <> VStr "OPTIONS")
  /\ (forall e w', handler_try E event w = (Raise e, w') ->
        handler E event ctx w = (Ok (Some (error_result E e)), w')
        /\ statusCode (error_result E e) = 500%Z
        /\ In ("Access-Control-Allow-Origin", "*") (res_headers (error_result E e))
        /\ res_body (error_result E e)
           = json_dumps
               (chat_object ("Sorry, I encountered an error: " ++ str_exn e)
                            (strftime (now E)))).
Proof.
  split; [apply handler_returns | split].
  - intros w'. unfold handler, handler_try, try_except, http_method.
    destruct (eq_str _ "POST") eqn:Hp.
    { destruct (handler_post E event w) as [[r | e] w1] eqn:Hh.
      - apply handler_post_status in Hh as (res & -> & _). discriminate.
      - discriminate. }
    destruct (eq_str _ "GET") eqn:Hg; [discriminate | ].
    destruct (eq_str _ "OPTIONS") eqn:Ho; [discriminate | ].
    intros _. now rewrite <- !eq_str_false.
  - intros e w' H. split; [now apply handler_caught | ].
    repeat split. simpl. auto.
Qed.


Lemma take_length (n : nat) (s : string) :
  String.length (take n s) = Nat.min n (String.length s).
Proof.
  revert s. induction n as [ | n IH]; intros [ | c s]; simpl; auto.
Qed.

Lemma take_prefix (n : nat) (s : string) : String.prefix (take n s) s = true.
Proof.
  revert s. induction n as [ | n IH]; intros [ | c s]; simpl; auto.
  destruct (ascii_dec c c); [apply IH | congruence].
Qed.

End Handler.

(** * Laws of the reference [json] implementation *)

Section RefJsonLaws.

Lemma append_assoc (a b c : string) : (a ++ b) ++ c = a ++ (b ++ c).
Proof. induction a as [ | x a IH]; simpl; [reflexivity | now rewrite IH]. Qed.

(** Decoding undoes the escape of one character. *)
Lemma parse_escape_char (c : ascii) (rest : string) :
  parse_string_body (escape_char c ++ rest)
  = match parse_string_body rest with
    | Some (str, r) => Some (String c str, r)
    | None => None
    end.
Proof. destruct c as [[] [] [] [] [] [] [] []]; reflexivity. Qed.

(** Decoding undoes [escape]: the characters of an encoded string,
    followed by the closing quote, decode to the string. *)
Lemma parse_escape (s rest : string) :
  parse_string_body (escape s ++ dq ++ rest) = Some (s, rest).
Proof.
  induction s as [ | c s IH]; [reflexivity | ].
  simpl escape. rewrite append_assoc, parse_escape_char. now rewrite IH.
Qed.

Lemma parse_quote (s rest : string) :
  parse_string_body (escape s ++ String (ascii_of_nat 34) rest) = Some (s, rest).
Proof. exact (parse_escape s rest). Qed.

(** The text the reference encoder writes for a chat object. *)
Lemma dumps_chat (r ts : string) :
  ref_dumps (chat_object r ts)
  = "{" ++ dq ++ "response" ++ dq ++ ": " ++ dq ++ escape r ++ dq ++ ", "
    ++ dq ++ "timestamp" ++ dq ++ ": " ++ dq ++ escape ts ++ dq ++ "}".
Proof.
  unfold ref_dumps, chat_object, dumps_at, quote, open_sep, item_sep.
  change (escape "response") with "response".
  change (escape "timestamp") with "timestamp".
  rewrite !append_assoc. reflexivity.
Qed.

(** Four units of fuel are enough to decode it. *)
Lemma parse_chat (f : nat) (r ts : string) :
  parse_value (S (S (S (S f)))) (ref_dumps (chat_object r ts))
  = Some (chat_object r ts, "").
Proof.
  rewrite dumps_chat. simpl. rewrite parse_quote.
  simpl. now rewrite parse_quote.
Qed.

Lemma dumps_chat_fuel (r ts : string) :
  exists f,
    (2 * String.length (ref_dumps (chat_object r ts)) + 2 = S (S (S (S f))))%nat.
Proof.
  rewrite dumps_chat. simpl String.length. eexists.
  rewrite Nat.add_comm. simpl. rewrite Nat.add_succ_r. reflexivity.
Qed.

(** The reference decoder reads back the chat objects the reference
    encoder writes. *)
Lemma ref_chat_roundtrip : chat_roundtrip (J := ref_json).
Proof.
  intros r ts. simpl json_loads. simpl json_dumps. unfold ref_loads.
  destruct (dumps_chat_fuel r ts) as [f ->].
  now rewrite parse_chat.
Qed.

End RefJsonLaws.


(** * Further properties of the AI client *)

Section ClientPaths.

Context {J : Json}.
Variable E : Env.

(** The [try] block of the client with a key, by the answers of the
    network. *)
Lemma get_ai_response_try_unfold (um uid : value) (w : world) :
  no_api_key E = false ->
  get_ai_response_try E um uid w
  = match network E w (primary_request E um) with
    | Fails e => (Raise e, (w ++ [primary_request E um])%list)
    | Responds r1 =>
        if (status_code r1 =? 200)%Z then
          read_answer r1 (ret (VStr canned_suggestion))
            (w ++ [primary_request E um])%list
        else
          match network E (w ++ [primary_request E um])%list
                        (retry_request E um) with
          | Fails e =>
              (Raise e, (w ++ [primary_request E um; retry_request E um])%list)
          | Responds r2 =>
              if (status_code r2 =? 200)%Z then
                read_answer r2 (status_fallback r2)
                  (w ++ [primary_request E um; retry_request E um])%list
              else
                status_fallback r2
                  (w ++ [primary_request E um; retry_request E um])%list
          end
    end.
Proof.
  intros Hk. unfold get_ai_response_try. rewrite Hk, intl_url_is_intl.
  unfold bind at 1. unfold requests_post at 1. fold (primary_request E um).
  destruct (network E w (primary_request E um)) as [r1 | e1]; [ | reflexivity].
  destruct (status_code r1 =? 200)%Z; [reflexivity | ].
  unfold bind at 1. unfold requests_post. fold (retry_request E um).
  rewrite <- app_assoc. simpl app.
  destruct (network E _ (retry_request E um)) as [r2 | e2]; [ | reflexivity].
  destruct (status_code r2 =? 200)%Z; reflexivity.
Qed.

(** Reading an answer sends nothing, and yields the text of the answer,
    the default, or an exception. *)
Lemma read_answer_cases (r : response) (dflt : M value) (w : world) :
  (exists x t, json_loads (text r) = Some x /\ output_text_is x t
               /\ read_answer r dflt w = (Ok t, w))
  \/ (exists x, json_loads (text r) = Some x
                /\ (forall t, ~ output_text_is x t)
                /\ read_answer r dflt w = dflt w)
  \/ (exists e, (forall x t, json_loads (text r) = Some x -> ~ output_text_is x t)
                /\ read_answer r dflt w = (Raise e, w)).
Proof.
  unfold read_answer, response_json, bind, ret, raise.
  destruct (json_loads (text r)) as [x | ] eqn:Hx.
  2:{ right; right. eexists. split; [intros; discriminate | reflexivity]. }
  pose proof (has_output_text_world x w) as Hh.
  destruct (has_output_text x w) as [[[] | e] wh] eqn:Hc; simpl in Hh; subst wh.
  - pose proof (get_output_text_world x w) as Hg.
    destruct (get_output_text x w) as [[t | e] wg] eqn:Ht; simpl in Hg; subst wg.
    + left. exists x, t. repeat split; auto. now apply get_output_text_inv in Ht.
    + right; right. exists e. split; [ | reflexivity].
      intros x' t [= <-] Hot. rewrite (get_output_text_ok x t w Hot) in Ht.
      discriminate.
  - right; left. exists x. repeat split; auto.
    intros t Hot. rewrite (has_output_text_true x t w Hot) in Hc. discriminate.
  - right; right. exists e. split; [ | reflexivity].
    intros x' t [= <-] Hot. rewrite (has_output_text_true x t w Hot) in Hc.
    discriminate.
Qed.

Lemma read_answer_text (r : response) (dflt : M value) (w : world)
    (x t : value) :
  json_loads (text r) = Some x -> output_text_is x t ->
  read_answer r dflt w = (Ok t, w).
Proof.
  intros Hx Ht. unfold read_answer, response_json, bind. rewrite Hx.
  unfold ret at 1. rewrite (has_output_text_true x t w Ht).
  apply (get_output_text_ok x t w Ht).
Qed.

Lemma read_answer_lacks_text (r : response) (dflt : M value) (w : world)
    (x : value) :
  json_loads (text r) = Some x -> lacks_text x ->
  read_answer r dflt w = dflt w.
Proof.
  intros Hx (d & -> & Hd). unfold read_answer, response_json, bind. rewrite Hx.
  unfold ret at 1, has_output_text, bind, lift, py_in, py_getitem, has_key.
  destruct Hd as [Hd | (o & Hd & Ho)]; rewrite Hd; [reflexivity | ].
  now rewrite Ho.
Qed.

Lemma read_answer_not_json (r : response) (dflt : M value) (w : world) :
  json_loads (text r) = None ->
  read_answer r dflt w = (Raise (JSONDecodeError "Expecting value"), w).
Proof.
  intros Hx. unfold read_answer, response_json, bind. now rewrite Hx.
Qed.

Lemma get_ai_response_of_try (um uid : value) (w w' : world) (r : result value) :
  get_ai_response_try E um uid w = (r, w') ->
  get_ai_response E um uid w
  = (Ok match r with Ok v => v | Raise _ => VStr exception_fallback end, w').
Proof. unfold get_ai_response, try_except, ret. intros ->. now destruct r. Qed.

(** X11. A 200 answer of the primary endpoint that carries a text ends the
    call: the text is returned as it is and the primary request is the
    only one sent. *)
Theorem primary_text_is_returned (um uid : value) (w : world) (r : response)
    (x t : value) :
  no_api_key E = false ->
  network E w (primary_request E um) = Responds r ->
  status_code r = 200%Z ->
  json_loads (text r) = Some x ->
  output_text_is x t ->
  get_ai_response E um uid w = (Ok t, (w ++ [primary_request E um])%list).
Proof.
  intros Hk Hn Hs Hx Ht.
  apply (get_ai_response_of_try um uid w _ (Ok t)).
  rewrite (get_ai_response_try_unfold um uid w Hk), Hn, Hs. simpl Z.eqb.
  cbv iota. now apply read_answer_text with x.
Qed.

(** X12. A 200 answer of the primary endpoint that is a mapping without
    [output], or whose [output] is a mapping without [text], gives the
    canned suggestion; the regional endpoint is not tried. *)
Theorem primary_without_text_is_canned (um uid : value) (w : world)
    (r : response) (x : value) :
  no_api_key E = false ->
  network E w (primary_request E um) = Responds r ->
  status_code r = 200%Z ->
  json_loads (text r) = Some x ->
  lacks_text x ->
  get_ai_response E um uid w
  = (Ok (VStr canned_suggestion), (w ++ [primary_request E um])%list).
Proof.
  intros Hk Hn Hs Hx Hl.
  apply (get_ai_response_of_try um uid w _ (Ok (VStr canned_suggestion))).
  rewrite (get_ai_response_try_unfold um uid w Hk), Hn, Hs. simpl Z.eqb.
  cbv iota. now rewrite (read_answer_lacks_text r _ _ x Hx Hl).
Qed.

(** X13. A 200 answer of the primary endpoint is final whatever its body:
    the primary request is the only one sent, and the result is the text
    of the answer, the canned suggestion or the fallback of the [except]
    clause. *)
Theorem primary_200_is_final (um uid : value) (w : world) (r : response) :
  no_api_key E = false ->
  network E w (primary_request E um) = Responds r ->
  status_code r = 200%Z ->
  snd (get_ai_response E um uid w) = (w ++ [primary_request E um])%list
  /\ ((exists x t, json_loads (text r) = Some x /\ output_text_is x t
                   /\ fst (get_ai_response E um uid w) = Ok t)
      \/ fst (get_ai_response E um uid w) = Ok (VStr canned_suggestion)
      \/ fst (get_ai_response E um uid w) = Ok (VStr exception_fallback)).
Proof.
  intros Hk Hn Hs.
  pose proof (get_ai_response_try_unfold um uid w Hk) as Hu.
  rewrite Hn, Hs in Hu. simpl Z.eqb in Hu. cbv iota in Hu.
  destruct (read_answer_cases r (ret (VStr canned_suggestion))
              (w ++ [primary_request E um]))
    as [(x & t & Hx & Hot & Hr) | [(x & Hx & _ & Hr) | (e & _ & Hr)]];
    rewrite Hr in Hu; rewrite (get_ai_response_of_try um uid w _ _ Hu);
    split; try reflexivity.
  - left. now exists x, t.
  - right; left. reflexivity.
  - right; right. reflexivity.
Qed.

(** X14. When the primary request raises, or is answered 200 with a body
    that is not JSON, the client returns the fallback of its [except]
    clause and does not try the regional endpoint: one request is sent. *)
Theorem primary_failure_is_not_retried (um uid : value) (w : world) :
  no_api_key E = false ->
  (exists e, network E w (primary_request E um) = Fails e)
  \/ (exists r, network E w (primary_request E um) = Responds r
                /\ status_code r = 200%Z /\ json_loads (text r) = None) ->
  get_ai_response E um uid w
  = (Ok (VStr exception_fallback), (w ++ [primary_request E um])%list).
Proof.
  intros Hk [(e & Hn) | (r & Hn & Hs & Hx)].
  - apply (get_ai_response_of_try um uid w _ (Raise e)).
    now rewrite (get_ai_response_try_unfold um uid w Hk), Hn.
  - apply (get_ai_response_of_try um uid w _
             (Raise (JSONDecodeError "Expecting value"))).
    rewrite (get_ai_response_try_unfold um uid w Hk), Hn, Hs. simpl Z.eqb.
    cbv iota. now apply read_answer_not_json.
Qed.

(** X15. After a primary answer other than 200, a retry that is answered
    with a status other than 200 decides the fallback alone: the
    API-key-trouble text if that status is 401, the technical-difficulties
    text for any other, whatever the status of the primary answer was. *)
Theorem retry_status_decides_fallback (um uid : value) (w : world)
    (r1 r2 : response) :
  no_api_key E = false ->
  network E w (primary_request E um) = Responds r1 ->
  status_code r1 <> 200%Z ->
  network E (w ++ [primary_request E um]) (retry_request E um) = Responds r2 ->
  status_code r2 <> 200%Z ->
  get_ai_response E um uid w
  = (Ok (VStr (if (status_code r2 =? 401)%Z then api_key_trouble
               else technical_difficulties)),
     (w ++ [primary_request E um; retry_request E um])%list).
Proof.
  intros Hk H1 S1 H2 S2. apply Z.eqb_neq in S1, S2.
  apply (get_ai_response_of_try um uid w _ (Ok _)).
  rewrite (get_ai_response_try_unfold um uid w Hk), H1, S1, H2, S2.
  unfold status_fallback, ret. now destruct (status_code r2 =? 401)%Z.
Qed.

(** X16. After a primary answer other than 200, a retry that raises or is
    answered 200 with a body that is not JSON gives the fallback of the
    [except] clause; a retry answered 200 with a mapping that lacks the
    text gives the technical-difficulties text, not the canned
    suggestion. *)
Theorem retry_without_text (um uid : value) (w : world) (r1 : response) :
  no_api_key E = false ->
  network E w (primary_request E um) = Responds r1 ->
  status_code r1 <> 200%Z ->
  let w1 := (w ++ [primary_request E um])%list in
  let w2 := (w ++ [primary_request E um; retry_request E um])%list in
  (forall e, network E w1 (retry_request E um) = Fails e ->
     get_ai_response E um uid w = (Ok (VStr exception_fallback), w2))
  /\ (forall r2, network E w1 (retry_request E um) = Responds r2 ->
        status_code r2 = 200%Z -> json_loads (text r2) = None ->
        get_ai_response E um uid w = (Ok (VStr exception_fallback), w2))
  /\ (forall r2 x, network E w1 (retry_request E um) = Responds r2 ->
        status_code r2 = 200%Z -> json_loads (text r2) = Some x ->
        lacks_text x ->
        get_ai_response E um uid w = (Ok (VStr technical_difficulties), w2)).
Proof.
  intros Hk H1 S1 w1 w2. apply Z.eqb_neq in S1.
  pose proof (get_ai_response_try_unfold um uid w Hk) as Hu.
  rewrite H1, S1 in Hu. fold w1 w2 in Hu.
  repeat split.
  - intros e H2. apply (get_ai_response_of_try um uid w _ (Raise e)).
    now rewrite Hu, H2.
  - intros r2 H2 S2 Hx.
    apply (get_ai_response_of_try um uid w _
             (Raise (JSONDecodeError "Expecting value"))).
    rewrite Hu, H2, S2. simpl Z.eqb. cbv iota. now apply read_answer_not_json.
  - intros r2 x H2 S2 Hx Hl.
    apply (get_ai_response_of_try um uid w _ (Ok (VStr technical_difficulties))).
    rewrite Hu, H2, S2. simpl Z.eqb. cbv iota.
    rewrite (read_answer_lacks_text r2 _ _ x Hx Hl).
    unfold status_fallback. now rewrite S2.
Qed.

Lemma fixed_text_in (s : string) : In s fixed_texts -> is_fixed_text (VStr s).
Proof. intros H. now exists s. Qed.

Lemma status_fallback_fixed (r : response) (w : world) :
  exists s, In s fixed_texts /\ status_fallback r w = (Ok (VStr s), w).
Proof.
  unfold status_fallback, ret, fixed_texts.
  destruct (status_code r =? 401)%Z; eexists; split; try reflexivity;
    simpl; auto.
Qed.

(** X17. Whatever the network does, the client returns one of its five
    fixed texts or the [text] field of a 200 answer to one of its two
    requests; nothing else of an upstream answer reaches the caller. *)
Theorem client_answer_provenance (um uid v : value) (w w' : world) :
  get_ai_response E um uid w = (Ok v, w') ->
  is_fixed_text v \/ from_upstream E um v.
Proof.
  destruct (get_ai_response_try E um uid w) as [r wt] eqn:Ht.
  rewrite (get_ai_response_of_try um uid w wt r Ht). intros [= <- _].
  assert (Hexc : is_fixed_text (VStr exception_fallback))
    by (apply fixed_text_in; simpl; auto 10).
  destruct r as [v | e]; [ | now left].
  rename Ht into Ht'.
  destruct (no_api_key E) eqn:Hk.
  { revert Ht'. unfold get_ai_response_try. rewrite Hk. intros [= <- _].
    left. apply fixed_text_in. simpl. auto. }
  rewrite (get_ai_response_try_unfold um uid w Hk) in Ht'.
  destruct (network E w (primary_request E um)) as [r1 | e1] eqn:H1;
    [ | discriminate].
  destruct (status_code r1 =? 200)%Z eqn:S1.
  - apply Z.eqb_eq in S1.
    destruct (read_answer_cases r1 (ret (VStr canned_suggestion))
                (w ++ [primary_request E um]))
      as [(x & t & Hx & Hot & Hr) | [(x & Hx & _ & Hr) | (e & _ & Hr)]];
      rewrite Hr in Ht'; try discriminate.
    + injection Ht' as <- _. right. exists w, (primary_request E um), r1, x.
      repeat split; auto.
    + injection Ht' as <- _. left. apply fixed_text_in. simpl. auto.
  - destruct (network E _ (retry_request E um)) as [r2 | e2] eqn:H2;
      [ | discriminate].
    destruct (status_fallback_fixed r2
                (w ++ [primary_request E um; retry_request E um]))
      as (s & Hs & Hf).
    destruct (status_code r2 =? 200)%Z eqn:S2.
    + apply Z.eqb_eq in S2.
      destruct (read_answer_cases r2 (status_fallback r2)
                  (w ++ [primary_request E um; retry_request E um]))
        as [(x & t & Hx & Hot & Hr) | [(x & Hx & _ & Hr) | (e & _ & Hr)]];
        rewrite Hr in Ht'; try discriminate.
      * injection Ht' as <- _. right.
        exists (w ++ [primary_request E um])%list, (retry_request E um), r2, x.
        repeat split; auto.
      * rewrite Hf in Ht'. injection Ht' as <- _. left. now apply fixed_text_in.
    + rewrite Hf in Ht'. injection Ht' as <- _. left. now apply fixed_text_in.
Qed.

Lemma read_answer_world (r : response) (dflt : M value) (w : world) :
  snd (dflt w) = w -> snd (read_answer r dflt w) = w.
Proof.
  intros Hd.
  destruct (read_answer_cases r dflt w)
    as [(x & t & _ & _ & Hr) | [(x & _ & _ & Hr) | (e & _ & Hr)]];
    rewrite Hr; auto.
Qed.

(** The requests of one call: none without a key; with a key the primary
    request, followed or not by the retry. *)
Lemma get_ai_response_trace (um uid : value) (w : world) :
  (no_api_key E = true /\ snd (get_ai_response E um uid w) = w)
  \/ (no_api_key E = false
      /\ (snd (get_ai_response E um uid w) = (w ++ [primary_request E um])%list
          \/ snd (get_ai_response E um uid w)
             = (w ++ [primary_request E um; retry_request E um])%list)).
Proof.
  destruct (get_ai_response_try E um uid w) as [r wt] eqn:Ht.
  rewrite (get_ai_response_of_try um uid w wt r Ht). simpl snd.
  destruct (no_api_key E) eqn:Hk.
  { left. split; auto. revert Ht. unfold get_ai_response_try. rewrite Hk.
    now intros [= _ <-]. }
  right. split; auto.
  assert (Hsf : forall r0 w0, snd (status_fallback r0 w0) = w0).
  { intros r0 w0. unfold status_fallback, ret.
    now destruct (status_code r0 =? 401)%Z. }
  rewrite (get_ai_response_try_unfold um uid w Hk) in Ht.
  destruct (network E w (primary_request E um)) as [r1 | e1].
  2:{ injection Ht as _ <-. now left. }
  destruct (status_code r1 =? 200)%Z.
  { left. rewrite <- (read_answer_world r1 (ret (VStr canned_suggestion))
                       (w ++ [primary_request E um]) eq_refl).
    now rewrite Ht. }
  right.
  destruct (network E _ (retry_request E um)) as [r2 | e2].
  2:{ now injection Ht as _ <-. }
  destruct (status_code r2 =? 200)%Z.
  - rewrite <- (read_answer_world r2 (status_fallback r2)
                  (w ++ [primary_request E um; retry_request E um])
                  (Hsf _ _)).
    now rewrite Ht.
  - rewrite <- (Hsf r2 (w ++ [primary_request E um; retry_request E um])%list).
    now rewrite Ht.
Qed.

End ClientPaths.

(** * Further properties of the event handler *)

Section HandlerPaths.

Context {J : Json}.
Variable E : Env.

Lemma strip_truthy (m : string) : strip m <> "" -> truthy_str (strip m) = true.
Proof. now destruct (strip m). Qed.

(** A message without text is answered by the debug text. *)
Lemma handler_debugs (event : dict) (ctx uid : value) (m : string) (w : world) :
  lookup "httpMethod" event = Some (VStr "POST") ->
  fst (extract_message (parse_body event (get_body_str event)) w)
    = Ok (VStr m, uid) ->
  strip m = "" ->
  handler E event ctx w = (Ok (Some (debug_result E event)), w).
Proof.
  intros Hp Hx Hm. run_handler. rewrite (is_post _ Hp).
  pose proof (extract_message_world (parse_body event (get_body_str event)) w)
    as Hw.
  destruct (extract_message _ w) as [rx wx]. simpl in Hx, Hw. subst rx wx.
  simpl. now rewrite Hm.
Qed.

Lemma extract_message_nested (d : dict) (s : string) (w : world) :
  lookup "message" d = None ->
  lookup "body" d = Some (VStr s) ->
  extract_message (VDict d) w
  = (Ok (extract_nested s (VStr "") (VStr "anonymous")), w).
Proof.
  intros Hm Hb. unfold extract_message, bind, lift, ret, py_in, py_getitem,
    has_key.
  now rewrite Hm, Hb.
Qed.

Lemma extract_message_empty (w : world) :
  extract_message (VDict []) w = (Ok (VStr "", VStr "anonymous"), w).
Proof. reflexivity. Qed.


(** X7. A POST whose [body] is neither a string nor a mapping (a number,
    a list, a boolean, [None]) is treated as an empty mapping: the answer
    is the 200 debug answer and nothing is sent upstream. *)
Theorem non_string_body_is_debug (event : dict) (ctx b : value) (w : world) :
  lookup "httpMethod" event = Some (VStr "POST") ->
  lookup "body" event = Some b ->
  (forall s, b <> VStr s) -> (forall d, b <> VDict d) ->
  handler E event ctx w = (Ok (Some (debug_result E event)), w)
  /\ statusCode (debug_result E event) = 200%Z.
Proof.
  intros Hp Hb Hs Hd. split; [ | reflexivity].
  apply handler_debugs with (uid := VStr "anonymous") (m := ""); auto.
  unfold get_body_str. rewrite Hb.
  destruct b; try reflexivity; [now destruct (Hs s) | now destruct (Hd d)].
Qed.

(** X1. Every result the handler returns has status 200 or 500 and
    carries the header [Access-Control-Allow-Origin: *]; the status is 500
    exactly when an exception was raised while the event was processed. *)
Theorem handler_result_shape (event : dict) (ctx : value) (w w' : world)
    (res : HttpResult) :
  handler E event ctx w = (Ok (Some res), w') ->
  (statusCode res = 200%Z \/ statusCode res = 500%Z)
  /\ In ("Access-Control-Allow-Origin", "*") (res_headers res)
  /\ (statusCode res = 500%Z <-> exists e, fst (handler_try E event w) = Raise e).
Proof.
  unfold handler, try_except, ret.
  destruct (handler_try E event w) as [[r | e] wt] eqn:Ht.
  - intros [= -> ->].
    assert (Hok : statusCode res = 200%Z
                  /\ In ("Access-Control-Allow-Origin", "*") (res_headers res)).
    { revert Ht. unfold handler_try.
      destruct (eq_str _ "POST").
      - unfold handler_post, respond, bind, lift, ret.
        destruct (extract_message _ w) as [[[um uid] | ] w1]; [ | discriminate].
        destruct (py_strip um) as [st | ]; [ | discriminate].
        destruct (truthy_str st).
        + destruct (get_ai_response E um uid w1) as [[v | ] w2];
            [ | discriminate].
          intros [= <- _]. simpl. auto.
        + intros [= <- _]. simpl. auto.
      - destruct (eq_str _ "GET"); [intros [= <- _]; simpl; auto | ].
        destruct (eq_str _ "OPTIONS"); [intros [= <- _]; simpl; auto | ].
        discriminate. }
    destruct Hok as [Hs Hc]. repeat split; auto.
    + rewrite Hs. discriminate.
    + intros (e & He). discriminate.
  - intros [= <- _]. repeat split; simpl; auto. now exists e.
Qed.

(** X2. An event with no [httpMethod], or with the method GET, gets the
    static status payload with status 200, whatever else it carries (a
    body, a message): nothing is extracted and nothing is sent upstream. *)
Theorem get_is_static (event : dict) (ctx : value) (w : world) :
  lookup "httpMethod" event = None
  \/ lookup "httpMethod" event = Some (VStr "GET") ->
  handler E event ctx w = (Ok (Some (get_result E)), w)
  /\ statusCode (get_result E) = 200%Z
  /\ res_body (get_result E)
     = json_dumps
         (VDict [ ("status", VStr "AI Meal Planner is running!");
                  ("message", VStr greeting);
                  ("timestamp", VStr (strftime (now E))) ]).
Proof.
  intros H. repeat split.
  run_handler. unfold dict_get. now destruct H as [-> | ->].
Qed.

(** X3. An event with the method OPTIONS gets status 200, an empty body
    and the three CORS headers, and nothing is sent upstream. *)
Theorem options_is_preflight (event : dict) (ctx : value) (w : world) :
  lookup "httpMethod" event = Some (VStr "OPTIONS") ->
  handler E event ctx w = (Ok (Some options_result), w)
  /\ statusCode options_result = 200%Z
  /\ res_body options_result = ""
  /\ res_headers options_result
     = [ ("Access-Control-Allow-Origin", "*");
         ("Access-Control-Allow-Methods", "POST, GET, OPTIONS");
         ("Access-Control-Allow-Headers", "Content-Type") ].
Proof.
  intros H. repeat split. run_handler. unfold dict_get. now rewrite H.
Qed.

(** X21. Every result of the handler but the one for OPTIONS has a body
    that is the JSON text of a mapping whose last field is [timestamp],
    the clock formatted by [strftime]; for a valid date and time it has
    the format YYYY-MM-DD HH:MM:SS. *)
Theorem results_are_timestamped (event : dict) (ctx : value) (w w' : world)
    (res : HttpResult) :
  valid_datetime (now E) ->
  handler E event ctx w = (Ok (Some res), w') ->
  res = options_result
  \/ (exists fields,
        res_body res
        = json_dumps
            (VDict (fields ++ [ ("timestamp", VStr (strftime (now E))) ]))
        /\ is_timestamp (strftime (now E)) = true).
Proof.
  intros Hv. pose proof (strftime_format _ Hv) as Hts.
  unfold handler, try_except, ret.
  destruct (handler_try E event w) as [[r | e] wt] eqn:Ht.
  - intros [= -> ->]. revert Ht. unfold handler_try.
    destruct (eq_str _ "POST").
    + unfold handler_post, respond, bind, lift, ret.
      destruct (extract_message _ w) as [[[um uid] | ] w1]; [ | discriminate].
      destruct (py_strip um) as [st | ]; [ | discriminate].
      destruct (truthy_str st).
      * destruct (get_ai_response E um uid w1) as [[v | ] w2];
          [ | discriminate].
        intros [= <- _]. right. exists [ ("response", v) ]. now split.
      * intros [= <- _]. right.
        exists [ ("response", VStr (debug_response event)) ]. now split.
    + destruct (eq_str _ "GET").
      * intros [= <- _]. right.
        exists [ ("status", VStr "AI Meal Planner is running!");
                 ("message", VStr greeting) ].
        now split.
      * destruct (eq_str _ "OPTIONS"); [ | discriminate].
        intros [= <- _]. now left.
  - intros [= <- _]. right.
    exists [ ("response",
               VStr ("Sorry, I encountered an error: " ++ str_exn e)) ].
    now split.
Qed.

End HandlerPaths.

(** * Properties of the local server shim *)

Section ShimPaths.

Context {J : Json}.
Variable E : Env.

(** X19. For a request body that is the JSON text of [v], [do_POST] hands
    the handler a POST whose [body] is [v] serialised again and writes
    out the status, headers and body of the handler's result unchanged;
    when [json] reads back what it wrote for [v], the body the handler
    works on is [v] itself. *)
Theorem do_POST_forwards (t : string) (v : value) (w : world) :
  json_loads t = Some v ->
  exists res w',
    handler E (shim_event v) (VDict []) w = (Ok (Some res), w')
    /\ do_POST E (Ok t) w = (Ok (wire_of res), w')
    /\ (json_dumps v <> "" -> json_loads (json_dumps v) = Some v ->
          parse_body (shim_event v) (get_body_str (shim_event v)) = v).
Proof.
  intros Ht.
  destruct (handler_returns E (shim_event v) (VDict []) w) as (r & w' & Hr).
  assert (Hsome : exists res, r = Some res).
  { revert Hr. unfold handler, try_except, ret, handler_try.
    rewrite (is_post (shim_event v) eq_refl).
    destruct (handler_post E (shim_event v) w) as [[r0 | e] wh] eqn:Hh;
      cbv beta iota.
    - apply handler_post_status in Hh as (res & -> & _).
      intros [= <- _]. eauto.
    - intros [= <- _]. eauto. }
  destruct Hsome as (res & ->).
  exists res, w'. repeat split; auto.
  - unfold do_POST, try_except, bind, lift, shim_loads. rewrite Ht.
    unfold ret at 1. now rewrite Hr.
  - intros Hne Hrt. unfold get_body_str, shim_event. simpl lookup.
    unfold parse_body. rewrite Hrt. now destruct (json_dumps v).
Qed.

(** X20. [do_GET] always writes status 200 with the static status payload
    of the handler and sends nothing upstream. *)
Theorem do_GET_is_static (w : world) :
  do_GET E w = (Ok (wire_of (get_result E)), w)
  /\ wire_status (wire_of (get_result E)) = 200%Z.
Proof. split; reflexivity. Qed.

End ShimPaths.

(** * Independence of the environment *)

Section Independence.

Context {J : Json}.

(** X22. The answer to an event whose method is not POST is decided by
    the method and the clock alone: it is the same for every API key,
    network, trace and other field of the event, and nothing is sent
    upstream. *)
Theorem non_post_is_independent (E1 E2 : Env) (event1 event2 : dict)
    (ctx1 ctx2 : value) (w1 w2 : world) :
  now E1 = now E2 ->
  http_method event1 = http_method event2 ->
  http_method event1 <> VStr "POST" ->
  fst (handler E1 event1 ctx1 w1) = fst (handler E2 event2 ctx2 w2)
  /\ snd (handler E1 event1 ctx1 w1) = w1.
Proof.
  intros Hnow Hm Hp. unfold http_method in Hm, Hp.
  apply eq_str_false in Hp.
  assert (Hget : get_result E1 = get_result E2).
  { unfold get_result, timestamp. now rewrite Hnow. }
  unfold handler, handler_try, try_except, ret.
  rewrite <- Hm, Hp, Hget.
  destruct (eq_str _ "GET"); [now split | ].
  destruct (eq_str _ "OPTIONS"); now split.
Qed.

(** X23. A POST whose decoded body is [null], a boolean or a number is
    answered by the 500 error result: the membership test on the body
    raises [TypeError] with the name of its type.  Nothing is sent
    upstream. *)
Theorem scalar_body_is_500 (E : Env) (event : dict) (ctx b : value) (w : world) :
  lookup "httpMethod" event = Some (VStr "POST") ->
  parse_body event (get_body_str event) = b ->
  is_scalar b = true ->
  handler E event ctx w
  = (Ok (Some (error_result E
                 (TypeError ("argument of type '" ++ type_name b
                             ++ "' is not iterable")))), w)
  /\ statusCode (error_result E
                   (TypeError ("argument of type '" ++ type_name b
                               ++ "' is not iterable"))) = 500%Z.
Proof.
  intros Hp Hb Hs. split; [ | reflexivity].
  run_handler. rewrite (is_post _ Hp), Hb.
  destruct b; try discriminate; reflexivity.
Qed.

End Independence.

(** * Properties of the logged handler *)

Section LoggedPaths.

Context {J : Json}.
Variable R : Runtime.
Variable E : Env.

Lemma print_shown (line : nat) (shown : list value) (w : world) :
  forallb (Logged.shows R) shown = true ->
  Logged.py_print R line shown w = (Ok tt, w).
Proof. unfold Logged.py_print. now intros ->. Qed.

Lemma print_refused (line : nat) (shown : list value) (w : world) :
  forallb (Logged.shows R) shown = false ->
  Logged.py_print R line shown w
  = (Raise (UnicodeEncodeError (codec_message R line shown)), w).
Proof. unfold Logged.py_print. now intros ->. Qed.

Lemma print_world (line : nat) (shown : list value) (w : world) :
  snd (Logged.py_print R line shown w) = w.
Proof. unfold Logged.py_print. now destruct (forallb _ shown). Qed.

Lemma print_one (line : nat) (v : value) (w : world) :
  Logged.py_print R line [v] w
  = (if Logged.shows R v then Ok tt
     else Raise (UnicodeEncodeError (codec_message R line [v])), w).
Proof.
  unfold Logged.py_print. simpl. rewrite andb_true_r.
  now destruct (Logged.shows R v).
Qed.

Lemma logs_event_dumps (event : dict) :
  logs_event R event = true ->
  dumps_raises R (VDict event) = None
  /\ Logged.stdout_encodes R (json_dumps (VDict event)) = true.
Proof.
  unfold logs_event. now destruct (dumps_raises R (VDict event)).
Qed.

(** Under the method POST the [try] block is the POST branch. *)
Lemma handler_try_post (event : dict) (w : world) :
  logs_event R event = true ->
  lookup "httpMethod" event = Some (VStr "POST") ->
  Logged.handler_try R E event w = Logged.handler_post R E event w.
Proof.
  intros Hl Hp. apply logs_event_dumps in Hl as [Hd He].
  unfold Logged.handler_try, Logged.dumps, bind. rewrite Hd. unfold ret at 1.
  rewrite print_one. simpl Logged.shows. rewrite He.
  unfold dict_get. rewrite Hp. rewrite print_one. reflexivity.
Qed.

Lemma handler_of_post (event : dict) (ctx : value) (w : world) :
  logs_event R event = true ->
  lookup "httpMethod" event = Some (VStr "POST") ->
  Logged.handler R E event ctx w
  = try_except (Logged.handler_post R E event)
               (fun e => ret (Some (error_result E e))) w.
Proof.
  intros Hl Hp. unfold Logged.handler, try_except.
  now rewrite (handler_try_post event w Hl Hp).
Qed.

(** ** The body *)

Lemma get_body_str_body (event : dict) (b : value) (w : world) :
  lookup "body" event = Some b ->
  Logged.get_body_str R event w
  = (if Logged.shows R b then Ok b
     else Raise (UnicodeEncodeError (codec_message R 40 [b])), w).
Proof.
  intros H. unfold Logged.get_body_str, bind. rewrite H, print_one.
  destruct (Logged.shows R b) eqn:Hs; [ | reflexivity].
  unfold ret at 1. now rewrite print_one, Hs.
Qed.

Lemma get_body_str_data (event : dict) (d : value) (w : world) :
  lookup "body" event = None -> lookup "data" event = Some d ->
  Logged.get_body_str R event w
  = (if Logged.shows R d then Ok d
     else Raise (UnicodeEncodeError (codec_message R 45 [d])), w).
Proof.
  intros Hb H. unfold Logged.get_body_str, bind. rewrite Hb, H, print_one.
  destruct (Logged.shows R d) eqn:Hs; [ | reflexivity].
  unfold ret at 1. now rewrite print_one, Hs.
Qed.

Lemma get_body_str_event (event : dict) (w : world) :
  lookup "body" event = None -> lookup "data" event = None ->
  dumps_raises R (VDict event) = None ->
  Logged.get_body_str R event w
  = (if Logged.stdout_encodes R (json_dumps (VDict event))
     then Ok (VStr (json_dumps (VDict event)))
     else Raise (UnicodeEncodeError
                   (codec_message R 52 [VStr (json_dumps (VDict event))])), w).
Proof.
  intros Hb Hd Hr. unfold Logged.get_body_str, Logged.dumps, bind.
  rewrite Hb, Hd, Hr. unfold ret at 1 2. rewrite print_one. simpl Logged.shows.
  now destruct (Logged.stdout_encodes R _).
Qed.

(** When the body found can be shown, it is the body the handler without
    prints finds. *)
Lemma get_body_str_shown (event : dict) (w : world) :
  logs_event R event = true ->
  Logged.shows R (get_body_str event) = true ->
  Logged.get_body_str R event w = (Ok (get_body_str event), w).
Proof.
  intros Hl Hs. apply logs_event_dumps in Hl as [Hd He].
  unfold get_body_str in *.
  destruct (lookup "body" event) as [b | ] eqn:Hb.
  { now rewrite (get_body_str_body event b w Hb), Hs. }
  destruct (lookup "data" event) as [d | ] eqn:Hda.
  { now rewrite (get_body_str_data event d w Hb Hda), Hs. }
  now rewrite (get_body_str_event event w Hb Hda Hd), He.
Qed.

Lemma get_body_str_world (event : dict) (w : world) :
  snd (Logged.get_body_str R event w) = w.
Proof.
  unfold Logged.get_body_str, Logged.dumps, bind.
  destruct (lookup "body" event) as [b | ].
  { rewrite print_one. destruct (Logged.shows R b) eqn:Hs; [ | reflexivity].
    unfold ret at 1. rewrite print_one. now rewrite Hs. }
  destruct (lookup "data" event) as [d | ].
  { rewrite print_one. destruct (Logged.shows R d) eqn:Hs; [ | reflexivity].
    unfold ret at 1. rewrite print_one. now rewrite Hs. }
  destruct (dumps_raises R (VDict event)); [reflexivity | ].
  unfold ret at 1 2. rewrite print_one. now destruct (Logged.shows R _).
Qed.

Lemma parse_body_empty (event : dict) (w : world) :
  Logged.parse_body R event (VStr "") w = (Ok (VDict []), w).
Proof. reflexivity. Qed.

Lemma parse_body_decoded (event : dict) (s : string) (v : value) (w : world) :
  s <> "" -> json_loads s = Some v ->
  Logged.parse_body R event (VStr s) w
  = (if Logged.shows R v then Ok v
     else Raise (UnicodeEncodeError (codec_message R 63 [v])), w).
Proof.
  intros Hs Hl. destruct s as [ | c s]; [congruence | ].
  unfold Logged.parse_body, try_except_decode, bind, Logged.loads.
  unfold truthy_str. cbv beta iota. rewrite Hl. unfold ret at 1.
  cbv beta iota. rewrite print_one. now destruct (Logged.shows R v).
Qed.

Lemma parse_body_decode_error (event : dict) (s msg : string) (w : world) :
  s <> "" -> json_loads s = None -> loads_error R s = JSONDecodeError msg ->
  Logged.parse_body R event (VStr s) w = (Ok (VDict event), w).
Proof.
  intros Hs Hl He. destruct s as [ | c s]; [congruence | ].
  unfold Logged.parse_body, try_except_decode, bind, Logged.loads.
  unfold truthy_str. cbv beta iota. rewrite Hl, He. reflexivity.
Qed.

Lemma parse_body_other_error (event : dict) (s : string) (w : world) :
  s <> "" -> json_loads s = None ->
  (forall msg, loads_error R s <> JSONDecodeError msg) ->
  Logged.parse_body R event (VStr s) w = (Raise (loads_error R s), w).
Proof.
  intros Hs Hl He. destruct s as [ | c s]; [congruence | ].
  unfold Logged.parse_body, try_except_decode, bind, Logged.loads.
  unfold truthy_str. cbv beta iota. rewrite Hl. unfold raise.
  destruct (loads_error R (String c s)) eqn:Hx; try reflexivity.
  now destruct (He msg).
Qed.

Lemma parse_body_mapping (event d : dict) (w : world) :
  Logged.parse_body R event (VDict d) w = (Ok (VDict d), w).
Proof. reflexivity. Qed.

Lemma parse_body_world (event : dict) (b : value) (w : world) :
  snd (Logged.parse_body R event b w) = w.
Proof.
  unfold Logged.parse_body, try_except_decode, bind, Logged.loads.
  destruct b; try reflexivity.
  destruct (truthy_str s); [ | reflexivity].
  destruct (json_loads s) as [v | ].
  - unfold ret at 1. rewrite print_one.
    now destruct (Logged.shows R v).
  - unfold raise. now destruct (loads_error R s).
Qed.

Lemma read_body_world (event : dict) (w : world) :
  snd (read_body R event w) = w.
Proof.
  unfold read_body, bind.
  pose proof (get_body_str_world event w) as H.
  destruct (Logged.get_body_str R event w) as [[b | e] w1]; simpl in H; subst w1;
    [apply parse_body_world | reflexivity].
Qed.

(** ** The message *)

Lemma extract_nested_logged (s : string) (um uid : value) (w : world) :
  Logged.extract_nested R s um uid w = (Ok (extract_nested s um uid), w).
Proof.
  unfold Logged.extract_nested, extract_nested, Logged.loads.
  destruct (json_loads s) as [inner | ]; [ | reflexivity].
  unfold ret. destruct (py_get inner "message" (VStr "")); [ | reflexivity].
  destruct (py_get inner "user_id" (VStr "anonymous")); [ | reflexivity].
  pose proof (print_world 85 [a] w) as H.
  destruct (Logged.py_print R 85 [a] w) as [r w1]. simpl in H. now subst w1.
Qed.

Lemma print_two (line : nat) (a b : value) (w : world) :
  Logged.py_print R line [a; b] w
  = (if Logged.shows R a && Logged.shows R b then Ok tt
     else Raise (UnicodeEncodeError (codec_message R line [a; b])), w).
Proof.
  unfold Logged.py_print. simpl. rewrite andb_true_r.
  now destruct (Logged.shows R a && Logged.shows R b).
Qed.

(** The extraction of the logged handler is that of the handler without
    prints, followed by the prints of what was extracted. *)
Lemma extract_message_logged (body : value) (w : world) :
  Logged.extract_message R body w
  = match extract_message body w with
    | (Ok (um, uid), w') =>
        if Logged.shows R um && Logged.shows R uid then (Ok (um, uid), w')
        else (Raise (refused_print R body um uid), w')
    | (Raise e, w') => (Raise e, w')
    end.
Proof.
  unfold Logged.extract_message, extract_message, refused_print, has_message,
    bind, lift, ret.
  destruct (py_in "message" body) as [[] | e] eqn:Hin; cbv beta iota.
  - destruct (py_getitem body "message") as [um | ]; [ | reflexivity].
    destruct (py_get body "user_id" (VStr "anonymous")) as [uid | ];
      [ | reflexivity].
    rewrite print_one.
    destruct (Logged.shows R um) eqn:Hu; simpl; [ | reflexivity].
    rewrite print_two, Hu. simpl.
    now destruct (Logged.shows R uid).
  - destruct (py_in "body" body) as [[] | e]; cbv beta iota; try reflexivity.
    destruct (py_getitem body "body") as [b | ]; [ | reflexivity].
    assert (Hd : forall um uid w0,
               match Logged.py_print R 89 [um; uid] w0 with
               | (Ok _, w') => (Ok (um, uid), w')
               | (Raise e, w') => (Raise e, w')
               end
               = if Logged.shows R um && Logged.shows R uid
                 then (Ok (um, uid), w0)
                 else (Raise (UnicodeEncodeError (codec_message R 89 [um; uid])),
                       w0)).
    { intros um uid w0. rewrite print_two.
      now destruct (Logged.shows R um && Logged.shows R uid). }
    destruct b; try apply Hd.
    rewrite extract_nested_logged.
    destruct (extract_nested s (VStr "") (VStr "anonymous")) as [um uid].
    apply Hd.
  - reflexivity.
Qed.

Lemma extract_message_logged_world (body : value) (w : world) :
  snd (Logged.extract_message R body w) = w.
Proof.
  rewrite extract_message_logged.
  pose proof (extract_message_world body w) as H.
  destruct (extract_message body w) as [[[um uid] | e] w1]; simpl in H; subst w1;
    [ | reflexivity].
  now destruct (Logged.shows R um && Logged.shows R uid).
Qed.

(** What the logged extraction returns was printed: stdout encodes it. *)
Lemma extract_message_shown (body um uid : value) (w : world) :
  fst (Logged.extract_message R body w) = Ok (um, uid) ->
  fst (extract_message body w) = Ok (um, uid)
  /\ Logged.shows R um = true /\ Logged.shows R uid = true.
Proof.
  rewrite extract_message_logged.
  destruct (extract_message body w) as [[[um' uid'] | e] w1]; [ | discriminate].
  destruct (Logged.shows R um' && Logged.shows R uid') eqn:Hs; [ | discriminate].
  simpl. intros [= -> ->]. apply andb_true_iff in Hs. tauto.
Qed.

(** ** The answer *)

Lemma respond_answers (event : dict) (m : string) (uid : value) (w : world) :
  strip m <> "" -> Logged.stdout_encodes R m = true ->
  Logged.respond R E event (VStr m) uid w = respond E event (VStr m) uid w.
Proof.
  intros Hm He. unfold Logged.respond, respond, bind, lift. simpl py_strip.
  cbv beta iota. rewrite (strip_truthy m Hm), print_one. simpl Logged.shows.
  now rewrite He.
Qed.

Lemma respond_debugs (event : dict) (m : string) (uid : value) (w : world) :
  dumps_raises R (VDict event) = None -> strip m = "" ->
  Logged.respond R E event (VStr m) uid w = (Ok (Some (debug_result E event)), w).
Proof.
  intros Hd Hm. unfold Logged.respond, Logged.dumps_indent, bind, lift.
  simpl py_strip. cbv beta iota. now rewrite Hm, Hd.
Qed.

Lemma respond_no_strip (event : dict) (v uid : value) (w : world) :
  is_str v = false ->
  Logged.respond R E event v uid w = (Raise (no_attribute v "strip"), w).
Proof. intros Hv. now destruct v. Qed.

(** The handler on a POST whose body was found and decoded. *)
Lemma handler_of_body (event : dict) (ctx body : value) (w : world) :
  logs_event R event = true ->
  lookup "httpMethod" event = Some (VStr "POST") ->
  fst (read_body R event w) = Ok body ->
  Logged.handler R E event ctx w
  = try_except
      (' (user_message, user_id) <- Logged.extract_message R body ;;
       Logged.respond R E event user_message user_id)
      (fun e => ret (Some (error_result E e))) w.
Proof.
  intros Hl Hp Hb. rewrite (handler_of_post event ctx w Hl Hp).
  pose proof (read_body_world event w) as Hw. revert Hb Hw.
  unfold try_except, Logged.handler_post, read_body, bind.
  destruct (Logged.get_body_str R event w) as [[bs | e] w1]; [ | discriminate].
  destruct (Logged.parse_body R event bs w1) as [[b | e] w2]; [ | discriminate].
  simpl. now intros [= ->] ->.
Qed.

(** A POST whose body cannot be found or decoded gets the error result. *)
Lemma handler_body_raises (event : dict) (ctx : value) (e : exn) (w : world) :
  logs_event R event = true ->
  lookup "httpMethod" event = Some (VStr "POST") ->
  fst (read_body R event w) = Raise e ->
  Logged.handler R E event ctx w = (Ok (Some (error_result E e)), w).
Proof.
  intros Hl Hp Hb. rewrite (handler_of_post event ctx w Hl Hp).
  pose proof (read_body_world event w) as Hw. revert Hb Hw.
  unfold try_except, Logged.handler_post, read_body, bind.
  destruct (Logged.get_body_str R event w) as [[bs | e1] w1].
  - destruct (Logged.parse_body R event bs w1) as [[b | e2] w2]; [discriminate | ].
    simpl. now intros [= ->] ->.
  - simpl. now intros [= ->] ->.
Qed.

(** A message with text, once printed, is answered by the AI client. *)
Lemma handler_answers_logged (event : dict) (ctx body uid : value) (m : string)
    (w : world) :
  logs_event R event = true ->
  lookup "httpMethod" event = Some (VStr "POST") ->
  fst (read_body R event w) = Ok body ->
  fst (Logged.extract_message R body w) = Ok (VStr m, uid) ->
  strip m <> "" ->
  answers_logged R E event ctx w m uid.
Proof.
  intros Hl Hp Hb Hx Hm.
  destruct (get_ai_response_returns E (VStr m) uid w) as (v & w' & Hv).
  exists v, w'. split; [exact Hv | ].
  rewrite (handler_of_body event ctx body w Hl Hp Hb).
  destruct (extract_message_shown body (VStr m) uid w Hx) as (_ & Hs & _).
  pose proof (extract_message_logged_world body w) as Hw.
  unfold try_except, bind.
  destruct (Logged.extract_message R body w) as [rx wx]. simpl in Hx, Hw.
  subst rx wx. rewrite (respond_answers event m uid w Hm Hs).
  unfold respond, bind, lift. simpl py_strip. cbv beta iota.
  now rewrite (strip_truthy m Hm), Hv.
Qed.

(** A message without text is answered by the debug text. *)
Lemma handler_debugs_logged (event : dict) (ctx body uid : value) (m : string)
    (w : world) :
  logs_event R event = true ->
  lookup "httpMethod" event = Some (VStr "POST") ->
  fst (read_body R event w) = Ok body ->
  fst (Logged.extract_message R body w) = Ok (VStr m, uid) ->
  strip m = "" ->
  Logged.handler R E event ctx w = (Ok (Some (debug_result E event)), w).
Proof.
  intros Hl Hp Hb Hx Hm.
  rewrite (handler_of_body event ctx body w Hl Hp Hb).
  pose proof (extract_message_logged_world body w) as Hw.
  unfold try_except, bind.
  destruct (Logged.extract_message R body w) as [rx wx]. simpl in Hx, Hw.
  subst rx wx. apply logs_event_dumps in Hl as [Hd _].
  now rewrite (respond_debugs event m uid w Hd Hm).
Qed.

(** An exception of the extraction gets the error result. *)
Lemma handler_extraction_raises (event : dict) (ctx body : value) (e : exn)
    (w : world) :
  logs_event R event = true ->
  lookup "httpMethod" event = Some (VStr "POST") ->
  fst (read_body R event w) = Ok body ->
  fst (Logged.extract_message R body w) = Raise e ->
  Logged.handler R E event ctx w = (Ok (Some (error_result E e)), w).
Proof.
  intros Hl Hp Hb Hx.
  rewrite (handler_of_body event ctx body w Hl Hp Hb).
  pose proof (extract_message_logged_world body w) as Hw.
  unfold try_except, bind.
  destruct (Logged.extract_message R body w) as [rx wx]. simpl in Hx, Hw.
  now subst rx wx.
Qed.

(** An extracted message or user identifier that stdout cannot encode
    gets the error result of the print that fails. *)
Lemma handler_refused (event : dict) (ctx body um uid : value) (w : world) :
  logs_event R event = true ->
  lookup "httpMethod" event = Some (VStr "POST") ->
  fst (read_body R event w) = Ok body ->
  fst (extract_message body w) = Ok (um, uid) ->
  Logged.shows R um && Logged.shows R uid = false ->
  Logged.handler R E event ctx w
  = (Ok (Some (error_result E (refused_print R body um uid))), w).
Proof.
  intros Hl Hp Hb Hx Hs.
  apply (handler_extraction_raises event ctx body _ w Hl Hp Hb).
  rewrite extract_message_logged.
  destruct (extract_message body w) as [rx wx]. simpl in Hx. subst rx.
  now rewrite Hs.
Qed.

(** What was extracted and can be shown is what the logged extraction
    returns. *)
Lemma extract_message_of_shown (body um uid : value) (w : world) :
  fst (extract_message body w) = Ok (um, uid) ->
  Logged.shows R um = true -> Logged.shows R uid = true ->
  fst (Logged.extract_message R body w) = Ok (um, uid).
Proof.
  intros Hx Hu Hi. rewrite extract_message_logged.
  destruct (extract_message body w) as [rx wx]. simpl in Hx. subst rx.
  now rewrite Hu, Hi.
Qed.

(** ** The requests *)

Lemma status_fallback_world (r : response) (w : world) :
  snd (status_fallback r w) = w.
Proof. unfold status_fallback, ret. now destruct (status_code r =? 401)%Z. Qed.

(** With a key the client sends the primary request, and the retry when
    the primary request is answered with a status other than 200. *)
Lemma get_ai_response_requests (um uid : value) (w : world) :
  no_api_key E = false ->
  snd (get_ai_response E um uid w)
  = (w ++ primary_request E um :: retry_of E w um)%list.
Proof.
  intros Hk.
  destruct (get_ai_response_try E um uid w) as [r wt] eqn:Ht.
  rewrite (get_ai_response_of_try E um uid w wt r Ht). simpl snd.
  rewrite (get_ai_response_try_unfold E um uid w Hk) in Ht.
  unfold retry_of.
  destruct (network E w (primary_request E um)) as [r1 | e1].
  2:{ now injection Ht as _ <-. }
  destruct (status_code r1 =? 200)%Z.
  { rewrite <- (read_answer_world r1 (ret (VStr canned_suggestion))
                  (w ++ [primary_request E um]) eq_refl).
    now rewrite Ht. }
  destruct (network E _ (retry_request E um)) as [r2 | e2].
  2:{ now injection Ht as _ <-. }
  destruct (status_code r2 =? 200)%Z.
  - rewrite <- (read_answer_world r2 (status_fallback r2)
                  (w ++ [primary_request E um; retry_request E um])
                  (status_fallback_world _ _)).
    now rewrite Ht.
  - rewrite <- (status_fallback_world r2
                  (w ++ [primary_request E um; retry_request E um])%list).
    now rewrite Ht.
Qed.

(** ** The body and the message of a POST *)

(** C7, as amended. The body of a POST is looked for in [event.body] if
    the key is present, else in [event.data] if that key is present, else
    it is the whole event serialised as JSON; the print of a body that
    stdout cannot encode raises.  A non-empty string is decoded as JSON:
    the decoded value is the body; if decoding fails with a
    [JSONDecodeError], the event itself is the body; any other exception
    of the decoder is not caught there.  The empty string is not decoded
    and gives the empty mapping.  The handler goes on with that body, and
    answers an exception raised on the way with the 500 error result. *)
Theorem body_extraction_precedence (event : dict) (w : world) :
  (forall b, lookup "body" event = Some b ->
     Logged.get_body_str R event w
     = (if Logged.shows R b then Ok b
        else Raise (UnicodeEncodeError (codec_message R 40 [b])), w))
  /\ (forall d, lookup "body" event = None -> lookup "data" event = Some d ->
        Logged.get_body_str R event w
        = (if Logged.shows R d then Ok d
           else Raise (UnicodeEncodeError (codec_message R 45 [d])), w))
  /\ (lookup "body" event = None -> lookup "data" event = None ->
      dumps_raises R (VDict event) = None ->
        Logged.get_body_str R event w
        = (if Logged.stdout_encodes R (json_dumps (VDict event))
           then Ok (VStr (json_dumps (VDict event)))
           else Raise (UnicodeEncodeError
                         (codec_message R 52 [VStr (json_dumps (VDict event))])),
           w))
  /\ (forall s v, s <> "" -> json_loads s = Some v ->
        Logged.parse_body R event (VStr s) w
        = (if Logged.shows R v then Ok v
           else Raise (UnicodeEncodeError (codec_message R 63 [v])), w))
  /\ (forall s msg, s <> "" -> json_loads s = None ->
        loads_error R s = JSONDecodeError msg ->
        Logged.parse_body R event (VStr s) w = (Ok (VDict event), w))
  /\ (forall s, s <> "" -> json_loads s = None ->
        (forall msg, loads_error R s <> JSONDecodeError msg) ->
        Logged.parse_body R event (VStr s) w = (Raise (loads_error R s), w))
  /\ Logged.parse_body R event (VStr "") w = (Ok (VDict []), w)
  /\ (forall ctx, logs_event R event = true ->
        lookup "httpMethod" event = Some (VStr "POST") ->
        (forall body, fst (read_body R event w) = Ok body ->
           Logged.handler R E event ctx w
           = try_except
               (' (user_message, user_id) <- Logged.extract_message R body ;;
                Logged.respond R E event user_message user_id)
               (fun e => ret (Some (error_result E e))) w)
        /\ (forall e, fst (read_body R event w) = Raise e ->
              Logged.handler R E event ctx w = (Ok (Some (error_result E e)), w)
              /\ statusCode (error_result E e) = 500%Z)).
Proof.
  split; [exact (fun b H => get_body_str_body event b w H) | ].
  split; [exact (fun d Hb H => get_body_str_data event d w Hb H) | ].
  split; [exact (get_body_str_event event w) | ].
  split; [exact (fun s v => parse_body_decoded event s v w) | ].
  split; [exact (fun s msg => parse_body_decode_error event s msg w) | ].
  split; [exact (fun s => parse_body_other_error event s w) | ].
  split; [reflexivity | ].
  intros ctx Hl Hp. split.
  - intros body Hb. now apply handler_of_body.
  - intros e He. split; [now apply handler_body_raises | reflexivity].
Qed.

(** C8, as amended. On a POST, when the extraction of the message, its
    prints included, runs to its end without an exception and finds no
    message (the message is the empty string or blank), the handler
    answers with status 200, and the response text is the debug text: a
    fixed lead, the first 500 characters of the dump of the event with
    indent 2 (all of it when it is shorter), and three dots.  A body that
    decodes to [null], a boolean or a number gets the 500 error result of
    the membership test, and an extracted message or user identifier that
    stdout cannot encode gets the 500 error result of the print that
    fails.  Nothing is sent upstream. *)
Theorem no_message_debug_result (event : dict) (ctx : value) (w : world) :
  logs_event R event = true ->
  lookup "httpMethod" event = Some (VStr "POST") ->
  (forall body uid m,
     fst (read_body R event w) = Ok body ->
     fst (Logged.extract_message R body w) = Ok (VStr m, uid) ->
     strip m = "" ->
     Logged.handler R E event ctx w = (Ok (Some (debug_result E event)), w)
     /\ statusCode (debug_result E event) = 200%Z
     /\ res_body (debug_result E event)
        = json_dumps (chat_object (debug_response event) (strftime (now E)))
     /\ debug_response event
        = "[DEBUG] Could not extract message. Event structure: "
          ++ take 500 (json_dumps_indent 2 (VDict event)) ++ "..."
     /\ String.prefix (take 500 (json_dumps_indent 2 (VDict event)))
                      (json_dumps_indent 2 (VDict event)) = true
     /\ String.length (take 500 (json_dumps_indent 2 (VDict event)))
        = Nat.min 500 (String.length (json_dumps_indent 2 (VDict event))))
  /\ (forall body,
        fst (read_body R event w) = Ok body ->
        is_scalar body = true ->
        Logged.handler R E event ctx w
        = (Ok (Some (error_result E
                       (TypeError ("argument of type '" ++ type_name body
                                   ++ "' is not iterable")))), w)
        /\ statusCode (error_result E
                         (TypeError ("argument of type '" ++ type_name body
                                     ++ "' is not iterable"))) = 500%Z)
  /\ (forall body um uid,
        fst (read_body R event w) = Ok body ->
        fst (extract_message body w) = Ok (um, uid) ->
        Logged.shows R um && Logged.shows R uid = false ->
        Logged.handler R E event ctx w
        = (Ok (Some (error_result E (refused_print R body um uid))), w)
        /\ statusCode (error_result E (refused_print R body um uid)) = 500%Z).
Proof.
  intros Hl Hp. split; [ | split].
  - intros body uid m Hb Hx Hm. repeat split.
    + now apply (handler_debugs_logged event ctx body uid m).
    + apply take_prefix.
    + apply take_length.
  - intros body Hb Hs. split; [ | reflexivity].
    apply (handler_extraction_raises event ctx body _ w Hl Hp Hb).
    rewrite extract_message_logged.
    destruct body; try discriminate; reflexivity.
  - intros body um uid Hb Hx Hs. split; [ | reflexivity].
    now apply handler_refused.
Qed.

(** C2, as amended. A POST whose [body] is the JSON text of the object
    with a non-empty string [message] and a string [user_id], where
    stdout encodes the text, the message and the user identifier, gets
    status 200 and a body that is the JSON text of an object with a
    [response] and a [timestamp] of the format YYYY-MM-DD HH:MM:SS.  The
    response is what the AI client returns for the message and the user
    identifier, or the debug text for a blank message; it is a string
    when every text carried by a 200 answer of the network is one, and
    the body then decodes to the object under the round-trip law of
    [json].  When stdout cannot encode the message or the user
    identifier, the answer is the 500 error result of the print that
    fails. *)
Theorem well_formed_post_ok (event : dict) (ctx : value) (w : world)
    (s m u : string) :
  valid_datetime (now E) ->
  logs_event R event = true ->
  lookup "httpMethod" event = Some (VStr "POST") ->
  lookup "body" event = Some (VStr s) ->
  s <> "" ->
  Logged.stdout_encodes R s = true ->
  json_loads s = Some (VDict [("message", VStr m); ("user_id", VStr u)]) ->
  m <> "" ->
  (Logged.stdout_encodes R m && Logged.stdout_encodes R u = true ->
     exists v w',
       Logged.handler R E event ctx w = (Ok (Some (chat_result E v)), w')
       /\ statusCode (chat_result E v) = 200%Z
       /\ res_body (chat_result E v)
          = json_dumps (VDict [ ("response", v);
                                ("timestamp", VStr (strftime (now E))) ])
       /\ is_timestamp (strftime (now E)) = true
       /\ (strip m <> "" ->
             get_ai_response E (VStr m) (VStr u) w = (Ok v, w'))
       /\ (strip m = "" -> v = VStr (debug_response event) /\ w' = w)
       /\ (upstream_text_is_str E ->
             exists r, v = VStr r
               /\ (chat_roundtrip ->
                     json_loads (res_body (chat_result E v))
                     = Some (chat_object r (strftime (now E))))))
  /\ (Logged.stdout_encodes R m && Logged.stdout_encodes R u = false ->
        Logged.handler R E event ctx w
        = (Ok (Some (error_result E
                       (UnicodeEncodeError
                          (if Logged.stdout_encodes R m
                           then codec_message R 89 [VStr m; VStr u]
                           else codec_message R 78 [VStr m])))), w)
        /\ statusCode
             (error_result E
                (UnicodeEncodeError
                   (if Logged.stdout_encodes R m
                    then codec_message R 89 [VStr m; VStr u]
                    else codec_message R 78 [VStr m]))) = 500%Z).
Proof.
  intros Ht Hl Hp Hb Hne Hes Hj Hm.
  pose proof (strftime_format _ Ht) as Hts.
  set (body := VDict [("message", VStr m); ("user_id", VStr u)]) in *.
  assert (Hrb : fst (read_body R event w) = Ok body).
  { unfold read_body, bind. rewrite (get_body_str_body event (VStr s) w Hb).
    simpl Logged.shows. rewrite Hes.
    now rewrite (parse_body_decoded event s body w Hne Hj). }
  assert (Hx : fst (extract_message body w) = Ok (VStr m, VStr u)).
  { unfold body.
    now rewrite (extract_message_direct
                   [("message", VStr m); ("user_id", VStr u)] (VStr m) w eq_refl). }
  split.
  - intros Hs. apply andb_true_iff in Hs as [Hsm Hsu].
    assert (Hlx : fst (Logged.extract_message R body w) = Ok (VStr m, VStr u))
      by now apply extract_message_of_shown.
    destruct (strip m) as [ | c m'] eqn:Hst.
    + exists (VStr (debug_response event)), w.
      split; [now apply (handler_debugs_logged event ctx body (VStr u) m) | ].
      repeat split; auto; try congruence.
      intros _. exists (debug_response event). split; [reflexivity | ].
      intros Hrt. apply Hrt.
    + assert (Hn : strip m <> "") by (rewrite Hst; discriminate).
      destruct (handler_answers_logged event ctx body (VStr u) m w
                  Hl Hp Hrb Hlx Hn) as (v & w' & Hv & Hh).
      exists v, w'. split; [exact Hh | ].
      repeat split; auto; try congruence.
      intros Hup.
      destruct (get_ai_response_string E (VStr m) (VStr u) w Hup)
        as (r & w2 & Hr).
      rewrite Hr in Hv. injection Hv as <- _.
      exists r. split; [reflexivity | ]. intros Hrt. apply Hrt.
  - intros Hs. split; [ | reflexivity].
    rewrite (handler_refused event ctx body (VStr m) (VStr u) w Hl Hp Hrb Hx Hs).
    unfold refused_print, has_message, body. simpl Logged.shows.
    simpl py_in. cbv beta iota.
    now destruct (Logged.stdout_encodes R m).
Qed.

(** ** Further properties of the logged handler *)

Lemma read_body_mapping (event d : dict) (w : world) :
  lookup "body" event = Some (VDict d) ->
  fst (read_body R event w) = Ok (VDict d).
Proof.
  intros Hb. unfold read_body, bind.
  now rewrite (get_body_str_body event (VDict d) w Hb).
Qed.

Lemma post_method (event : dict) :
  http_method event = VStr "POST" ->
  lookup "httpMethod" event = Some (VStr "POST").
Proof.
  unfold http_method, dict_get.
  destruct (lookup "httpMethod" event); [now intros -> | discriminate].
Qed.

(** An event that is no POST, or that cannot be logged, sends nothing. *)
Lemma handler_quiet_world (event : dict) (ctx : value) (w : world) :
  logs_event R event = false \/ http_method event <> VStr "POST" ->
  snd (Logged.handler R E event ctx w) = w.
Proof.
  intros H. unfold Logged.handler, try_except, Logged.handler_try,
    Logged.dumps, bind, logs_event, http_method in *.
  destruct (dumps_raises R (VDict event)); [reflexivity | ].
  unfold ret at 1. rewrite print_one. simpl Logged.shows.
  destruct (Logged.stdout_encodes R (json_dumps (VDict event)));
    [ | reflexivity].
  destruct H as [H | H]; [discriminate | ].
  rewrite print_one.
  destruct (Logged.shows R _); [ | reflexivity].
  apply eq_str_false in H. rewrite H.
  destruct (eq_str _ "GET"); [reflexivity | ].
  destruct (eq_str _ "OPTIONS"); reflexivity.
Qed.

(** X4. The handler sends requests upstream exactly for a POST that is
    logged, with a key configured, whose extracted and printed message is
    a string with text: it then sends the primary request for that
    message, followed by the one retry when the primary request is
    answered with a status other than 200, and nothing else.  In every
    other case the trace of requests is unchanged. *)
Theorem handler_upstream_calls (event : dict) (ctx : value) (w : world) :
  (forall body m uid,
     logs_event R event = true ->
     http_method event = VStr "POST" ->
     fst (read_body R event w) = Ok body ->
     fst (Logged.extract_message R body w) = Ok (VStr m, uid) ->
     strip m <> "" ->
     no_api_key E = false ->
     snd (Logged.handler R E event ctx w)
     = (w ++ primary_request E (VStr m) :: retry_of E w (VStr m))%list)
  /\ (snd (Logged.handler R E event ctx w) = w
      \/ exists body m uid,
           logs_event R event = true
           /\ http_method event = VStr "POST"
           /\ fst (read_body R event w) = Ok body
           /\ fst (Logged.extract_message R body w) = Ok (VStr m, uid)
           /\ strip m <> ""
           /\ no_api_key E = false).
Proof.
  split.
  - intros body m uid Hl Hp Hb Hx Hm Hk. apply post_method in Hp.
    destruct (handler_answers_logged event ctx body uid m w Hl Hp Hb Hx Hm)
      as (v & w' & Hv & ->).
    simpl snd. rewrite <- (get_ai_response_requests (VStr m) uid w Hk).
    now rewrite Hv.
  - destruct (logs_event R event) eqn:Hl;
      [ | left; apply handler_quiet_world; now left].
    destruct (eq_str (http_method event) "POST") eqn:Hp;
      [ | left; apply handler_quiet_world; right; now apply eq_str_false].
    apply eq_str_true in Hp. pose proof (post_method event Hp) as Hp'.
    destruct (read_body R event w) as [[body | e] wb] eqn:Hb.
    2:{ left. now rewrite (handler_body_raises event ctx e w Hl Hp');
          [ | rewrite Hb]. }
    assert (Hb' : fst (read_body R event w) = Ok body) by now rewrite Hb.
    destruct (Logged.extract_message R body w) as [[[um uid] | e] wx] eqn:Hx.
    2:{ left. now rewrite (handler_extraction_raises event ctx body e w
                             Hl Hp' Hb'); [ | rewrite Hx]. }
    assert (Hx' : fst (Logged.extract_message R body w) = Ok (um, uid))
      by now rewrite Hx.
    destruct (is_str um) eqn:Hs.
    2:{ left. rewrite (handler_of_body event ctx body w Hl Hp' Hb').
        pose proof (extract_message_logged_world body w) as Hw.
        unfold try_except, bind. rewrite Hx in Hw |- *. simpl in Hw. subst wx.
        now rewrite (respond_no_strip event um uid w Hs). }
    destruct um as [ | | | | m | | ]; try discriminate.
    destruct (strip m) as [ | c m'] eqn:Hm.
    { left. now rewrite (handler_debugs_logged event ctx body uid m w
                           Hl Hp' Hb' Hx' Hm). }
    assert (Hn : strip m <> "") by (rewrite Hm; discriminate).
    destruct (no_api_key E) eqn:Hk.
    + left.
      destruct (handler_answers_logged event ctx body uid m w Hl Hp' Hb' Hx' Hn)
        as (v & w' & Hv & ->).
      simpl snd.
      destruct (get_ai_response_trace E (VStr m) uid w) as [[_ Ht] | [Hk' _]];
        [ | congruence].
      now rewrite Hv in Ht.
    + right. exists body, m, uid. repeat split; auto.
Qed.

(** X5. A POST whose body is a mapping without [message] but with a
    string [body] that is the JSON text of a mapping is answered for the
    message of that inner mapping, with its [user_id] or "anonymous",
    when stdout encodes both; otherwise the print of line 89 raises and
    the answer is the 500 error result. *)
Theorem nested_body_message (event d inner : dict) (ctx : value) (s m : string)
    (w : world) :
  logs_event R event = true ->
  lookup "httpMethod" event = Some (VStr "POST") ->
  fst (read_body R event w) = Ok (VDict d) ->
  lookup "message" d = None ->
  lookup "body" d = Some (VStr s) ->
  json_loads s = Some (VDict inner) ->
  lookup "message" inner = Some (VStr m) ->
  strip m <> "" ->
  (Logged.stdout_encodes R m
   && Logged.shows R (dict_get "user_id" (VStr "anonymous") inner) = true ->
     answers_logged R E event ctx w m
       (dict_get "user_id" (VStr "anonymous") inner))
  /\ (Logged.stdout_encodes R m
      && Logged.shows R (dict_get "user_id" (VStr "anonymous") inner) = false ->
        Logged.handler R E event ctx w
        = (Ok (Some (error_result E
                       (UnicodeEncodeError
                          (codec_message R 89
                             [VStr m;
                              dict_get "user_id" (VStr "anonymous") inner])))),
           w)).
Proof.
  intros Hl Hp Hb Hm Hs Hj Hi Hne.
  assert (Hx : fst (extract_message (VDict d) w)
               = Ok (VStr m, dict_get "user_id" (VStr "anonymous") inner)).
  { rewrite (extract_message_nested d s w Hm Hs).
    unfold extract_nested. rewrite Hj. simpl. unfold dict_get at 1.
    now rewrite Hi. }
  split; intros Hsh.
  - apply andb_true_iff in Hsh as [Hsm Hsu].
    apply (handler_answers_logged event ctx (VDict d)); auto.
    now apply extract_message_of_shown.
  - rewrite (handler_refused event ctx (VDict d) _ _ w Hl Hp Hb Hx Hsh).
    unfold refused_print, has_message, py_in, has_key. now rewrite Hm.
Qed.

(** X8. A POST whose [body] is already a mapping is not decoded: a
    message found in it is answered as it is, with the [user_id] of the
    mapping or "anonymous", when stdout encodes both.  A message that
    stdout cannot encode raises at the print of line 78, a user
    identifier at that of line 89, and the answer is the 500 error
    result. *)
Theorem mapping_body_is_used (event d : dict) (ctx : value) (m : string)
    (w : world) :
  logs_event R event = true ->
  lookup "httpMethod" event = Some (VStr "POST") ->
  lookup "body" event = Some (VDict d) ->
  lookup "message" d = Some (VStr m) ->
  strip m <> "" ->
  (Logged.stdout_encodes R m
   && Logged.shows R (dict_get "user_id" (VStr "anonymous") d) = true ->
     answers_logged R E event ctx w m (dict_get "user_id" (VStr "anonymous") d))
  /\ (Logged.stdout_encodes R m = false ->
        Logged.handler R E event ctx w
        = (Ok (Some (error_result E
                       (UnicodeEncodeError (codec_message R 78 [VStr m])))), w))
  /\ (Logged.stdout_encodes R m = true ->
      Logged.shows R (dict_get "user_id" (VStr "anonymous") d) = false ->
        Logged.handler R E event ctx w
        = (Ok (Some (error_result E
                       (UnicodeEncodeError
                          (codec_message R 89
                             [VStr m;
                              dict_get "user_id" (VStr "anonymous") d])))), w)).
Proof.
  intros Hl Hp Hb Hm Hne.
  pose proof (read_body_mapping event d w Hb) as Hrb.
  assert (Hx : fst (extract_message (VDict d) w)
               = Ok (VStr m, dict_get "user_id" (VStr "anonymous") d))
    by now rewrite (extract_message_direct d (VStr m) w Hm).
  assert (Hh : has_message (VDict d) = true).
  { unfold has_message, py_in, has_key. now rewrite Hm. }
  split; [ | split].
  - intros Hsh. apply andb_true_iff in Hsh as [Hsm Hsu].
    apply (handler_answers_logged event ctx (VDict d)); auto.
    now apply extract_message_of_shown.
  - intros Hsm.
    rewrite (handler_refused event ctx (VDict d) _ _ w Hl Hp Hrb Hx);
      [ | simpl Logged.shows; now rewrite Hsm].
    unfold refused_print. rewrite Hh. simpl Logged.shows. now rewrite Hsm.
  - intros Hsm Hsu.
    rewrite (handler_refused event ctx (VDict d) _ _ w Hl Hp Hrb Hx);
      [ | simpl Logged.shows; now rewrite Hsm, Hsu].
    unfold refused_print. rewrite Hh. simpl Logged.shows. now rewrite Hsm.
Qed.

(** X9. A body text that decodes to a JSON string is printed and then
    searched as text: when stdout cannot encode the string, the print of
    line 63 raises; when the string contains the word [message] or the
    word [body], indexing it raises; both are answered by the 500 error
    result.  Otherwise the answer is the 200 debug answer. *)
Theorem string_body_is_searched (event : dict) (ctx : value) (t s : string)
    (w : world) :
  logs_event R event = true ->
  lookup "httpMethod" event = Some (VStr "POST") ->
  fst (Logged.get_body_str R event w) = Ok (VStr t) ->
  t <> "" ->
  json_loads t = Some (VStr s) ->
  Logged.handler R E event ctx w
  = (Ok (Some (if Logged.stdout_encodes R s
               then if contains "message" s || contains "body" s
                    then error_result E
                           (TypeError "string indices must be integers, not 'str'")
                    else debug_result E event
               else error_result E
                      (UnicodeEncodeError (codec_message R 63 [VStr s])))), w).
Proof.
  intros Hl Hp Hg Ht Hj.
  assert (Hrb : fst (read_body R event w)
                = if Logged.stdout_encodes R s then Ok (VStr s)
                  else Raise (UnicodeEncodeError (codec_message R 63 [VStr s]))).
  { unfold read_body, bind.
    pose proof (get_body_str_world event w) as Hw.
    destruct (Logged.get_body_str R event w) as [rb wb]. simpl in Hg, Hw.
    subst rb wb. rewrite (parse_body_decoded event t (VStr s) w Ht Hj).
    reflexivity. }
  destruct (Logged.stdout_encodes R s) eqn:Hs.
  2:{ now apply handler_body_raises. }
  destruct (contains "message" s || contains "body" s) eqn:Hc.
  - apply (handler_extraction_raises event ctx (VStr s) _ w Hl Hp Hrb).
    rewrite extract_message_logged.
    unfold extract_message, bind, lift, ret, py_in, py_getitem.
    destruct (contains "message" s); [reflexivity | ].
    simpl in Hc. now rewrite Hc.
  - apply orb_false_iff in Hc as [Hc1 Hc2].
    apply (handler_debugs_logged event ctx (VStr s) (VStr "anonymous") "" w
             Hl Hp Hrb); [ | reflexivity].
    rewrite extract_message_logged.
    unfold extract_message, bind, lift, ret, py_in.
    now rewrite Hc1, Hc2.
Qed.

(** X10. The answer to a message depends on the message alone: two POSTs
    whose decoded bodies are mappings with the same message get the same
    result and cause the same requests, whatever their other fields and
    whatever their user identifiers, as long as stdout encodes these.  A
    user identifier that stdout cannot encode makes the difference: its
    event gets the 500 error result. *)
Theorem answer_depends_on_message_only (event1 event2 d1 d2 : dict)
    (ctx1 ctx2 : value) (m : string) (w : world) :
  logs_event R event1 = true ->
  logs_event R event2 = true ->
  lookup "httpMethod" event1 = Some (VStr "POST") ->
  lookup "httpMethod" event2 = Some (VStr "POST") ->
  fst (read_body R event1 w) = Ok (VDict d1) ->
  fst (read_body R event2 w) = Ok (VDict d2) ->
  lookup "message" d1 = Some (VStr m) ->
  lookup "message" d2 = Some (VStr m) ->
  strip m <> "" ->
  Logged.stdout_encodes R m = true ->
  Logged.shows R (dict_get "user_id" (VStr "anonymous") d1) = true ->
  (Logged.shows R (dict_get "user_id" (VStr "anonymous") d2) = true ->
     Logged.handler R E event1 ctx1 w = Logged.handler R E event2 ctx2 w)
  /\ (Logged.shows R (dict_get "user_id" (VStr "anonymous") d2) = false ->
        (exists v w',
           Logged.handler R E event1 ctx1 w = (Ok (Some (chat_result E v)), w'))
        /\ Logged.handler R E event2 ctx2 w
           = (Ok (Some (error_result E
                          (UnicodeEncodeError
                             (codec_message R 89
                                [VStr m;
                                 dict_get "user_id" (VStr "anonymous") d2])))),
              w)).
Proof.
  intros Hl1 Hl2 Hp1 Hp2 Hb1 Hb2 Hm1 Hm2 Hne Hsm Hs1.
  assert (Hx : forall d, lookup "message" d = Some (VStr m) ->
                 fst (extract_message (VDict d) w)
                 = Ok (VStr m, dict_get "user_id" (VStr "anonymous") d)).
  { intros d Hd. now rewrite (extract_message_direct d (VStr m) w Hd). }
  assert (H1 : answers_logged R E event1 ctx1 w m
                 (dict_get "user_id" (VStr "anonymous") d1)).
  { apply (handler_answers_logged event1 ctx1 (VDict d1)); auto.
    apply extract_message_of_shown; auto. }
  destruct H1 as (v1 & w1 & Ha1 & Hh1).
  split; intros Hs2.
  - assert (H2 : answers_logged R E event2 ctx2 w m
                   (dict_get "user_id" (VStr "anonymous") d2)).
    { apply (handler_answers_logged event2 ctx2 (VDict d2)); auto.
      apply extract_message_of_shown; auto. }
    destruct H2 as (v2 & w2 & Ha2 & Hh2). rewrite Hh1, Hh2.
    change (get_ai_response E (VStr m)
              (dict_get "user_id" (VStr "anonymous") d2) w)
      with (get_ai_response E (VStr m)
              (dict_get "user_id" (VStr "anonymous") d1) w) in Ha2.
    rewrite Ha1 in Ha2. now injection Ha2 as -> ->.
  - split; [now exists v1, w1 | ].
    rewrite (handler_refused event2 ctx2 (VDict d2) _ _ w Hl2 Hp2 Hb2 (Hx d2 Hm2));
      [ | simpl Logged.shows; now rewrite Hsm, Hs2].
    unfold refused_print. simpl Logged.shows. rewrite Hsm.
    now rewrite andb_false_r.
Qed.

(** X18. When the request body cannot be read or decoded as UTF-8,
    [do_POST] answers 500 with a JSON object whose [error] is the message
    of the exception raised; when the text is not JSON, the exception is
    the one [json.loads] raises on it.  The handler is not called and
    nothing is sent upstream. *)
Theorem do_POST_bad_request (w : world) :
  (forall e, Logged.do_POST R E (Raise e) w = (Ok (shim_error e), w))
  /\ (forall t, json_loads t = None ->
        Logged.do_POST R E (Ok t) w = (Ok (shim_error (loads_error R t)), w))
  /\ (forall e,
        wire_status (shim_error e) = 500%Z
        /\ wire_headers (shim_error e) = [ ("Content-Type", "application/json") ]
        /\ wire_body (shim_error e)
           = json_dumps (VDict [ ("error", VStr (str_exn e)) ])).
Proof.
  split; [reflexivity | split].
  - intros t Ht. unfold Logged.do_POST, try_except, bind, lift, Logged.loads.
    now rewrite Ht.
  - intros e. repeat split.
Qed.

(** ** The handler without prints *)

Section Quiet.

Hypothesis HQ : quiet R.

Lemma quiet_encodes (s : string) : Logged.stdout_encodes R s = true.
Proof.
  destruct HQ as (He & _). unfold Logged.stdout_encodes.
  apply forallb_forall. intros c _. rewrite He. apply orb_true_r.
Qed.

Lemma quiet_shows (v : value) : Logged.shows R v = true.
Proof. destruct v; try reflexivity. apply quiet_encodes. Qed.

Lemma quiet_print (line : nat) (shown : list value) (w : world) :
  Logged.py_print R line shown w = (Ok tt, w).
Proof.
  apply print_shown, forallb_forall. intros v _. apply quiet_shows.
Qed.

Lemma quiet_logs (event : dict) : logs_event R event = true.
Proof.
  destruct HQ as (_ & _ & Hd). unfold logs_event. rewrite Hd.
  apply quiet_encodes.
Qed.

Lemma quiet_get_body_str (event : dict) (w : world) :
  Logged.get_body_str R event w = (Ok (get_body_str event), w).
Proof. apply get_body_str_shown; [apply quiet_logs | apply quiet_shows]. Qed.

Lemma quiet_parse_body (event : dict) (b : value) (w : world) :
  Logged.parse_body R event b w = (Ok (parse_body event b), w).
Proof.
  destruct b; try reflexivity.
  destruct s as [ | c s]; [reflexivity | ].
  assert (Hne : String c s <> "") by discriminate.
  unfold parse_body, truthy_str.
  destruct (json_loads (String c s)) as [v | ] eqn:Hj.
  - rewrite (parse_body_decoded event _ v w Hne Hj).
    now rewrite quiet_shows.
  - destruct HQ as (_ & Hl & _). destruct (Hl (String c s)) as (msg & Hm).
    now apply (parse_body_decode_error event _ msg).
Qed.

Lemma quiet_extract_message (body : value) (w : world) :
  Logged.extract_message R body w = extract_message body w.
Proof.
  rewrite extract_message_logged.
  destruct (extract_message body w) as [[[um uid] | e] w1]; [ | reflexivity].
  now rewrite !quiet_shows.
Qed.

Lemma quiet_respond (event : dict) (um uid : value) (w : world) :
  Logged.respond R E event um uid w = respond E event um uid w.
Proof.
  destruct um; try reflexivity.
  destruct (strip s) as [ | c s'] eqn:Hs.
  - destruct HQ as (_ & _ & Hd).
    rewrite (respond_debugs event s uid w (Hd _) Hs).
    unfold respond, bind, lift. simpl py_strip. cbv beta iota. now rewrite Hs.
  - apply respond_answers; [rewrite Hs; discriminate | apply quiet_encodes].
Qed.

(** When stdout encodes every character and [json] fails by
    [JSONDecodeError] only, the logged handler is the handler without
    prints. *)
Lemma quiet_handler (event : dict) (ctx : value) (w : world) :
  Logged.handler R E event ctx w = handler E event ctx w.
Proof.
  unfold Logged.handler, handler, try_except.
  assert (Ht : Logged.handler_try R E event w = handler_try E event w).
  { unfold Logged.handler_try, handler_try, Logged.dumps, bind.
    destruct HQ as (_ & _ & Hd). rewrite Hd. unfold ret at 1.
    rewrite !quiet_print.
    destruct (eq_str _ "POST"); [ | reflexivity].
    unfold Logged.handler_post, handler_post, bind.
    rewrite quiet_get_body_str, quiet_parse_body, quiet_extract_message.
    destruct (extract_message _ w) as [[[um uid] | e] w1]; [ | reflexivity].
    apply quiet_respond. }
  now rewrite Ht.
Qed.

End Quiet.

End LoggedPaths.

(** * Concrete runs *)

(** C4, witness: with no key, the answer is the service-unavailable text
    and the trace stays empty. *)
Lemma no_api_key_run :
  get_ai_response (J := ref_json) env_no_key lunch user1 []
  = (Ok (VStr service_unavailable), []).
Proof.
  apply (no_api_key_no_network_call env_no_key lunch user1 []).
  left. reflexivity.
Defined.

(** C5, counterexample: the primary endpoint answers 401, the regional
    retry answers 500, and the client returns the text of the technical
    difficulties, which is not the API-key-trouble text. *)
Lemma unauthorized_then_500_run :
  network env_401_500 [] (primary_request env_401_500 lunch)
  = Responds {| status_code := 401;
                text := ref_dumps (error_answer "InvalidApiKey") |}
  /\ get_ai_response (J := ref_json) env_401_500 lunch user1 []
     = (Ok (VStr technical_difficulties),
        [primary_request env_401_500 lunch; retry_request env_401_500 lunch])
  /\ technical_difficulties <> api_key_trouble.
Proof.
  split; [reflexivity | split; [now vm_compute | discriminate]].
Qed.

(** C5, witness: both endpoints answer 401. *)
Lemma unauthorized_twice_run :
  fst (get_ai_response (J := ref_json) env_401_401 lunch user1 [])
  = Ok (VStr api_key_trouble).
Proof.
  apply (unauthorized_twice_api_key_trouble env_401_401 lunch user1 []
           {| status_code := 401; text := ref_dumps (error_answer "InvalidApiKey") |}
           {| status_code := 401; text := ref_dumps (error_answer "InvalidApiKey") |});
    reflexivity.
Defined.

(** C6, witness: the primary endpoint answers 503; the trace is the
    primary request followed by the one retry, and the text of the retry
    is returned. *)
Lemma retry_run :
  snd (get_ai_response (J := ref_json) env_503_200 lunch user1 [])
  = [primary_request env_503_200 lunch; retry_request env_503_200 lunch]
  /\ fst (get_ai_response (J := ref_json) env_503_200 lunch user1 [])
     = Ok (VStr "Try a bean stew.").
Proof.
  destruct (single_retry_on_regional_endpoint env_503_200 lunch user1 []
              {| status_code := 503;
                 text := ref_dumps (error_answer "ServiceUnavailable") |}
              eq_refl eq_refl ltac:(discriminate))
    as (Htrace & _ & _ & _ & _ & Htext & _).
  split; [exact Htrace | ].
  apply (Htext {| status_code := 200;
                  text := ref_dumps (with_text (VStr "Try a bean stew.")) |}
               (with_text (VStr "Try a bean stew.")));
    try reflexivity.
  now exists [("output", VDict [("text", VStr "Try a bean stew.")])],
             [("text", VStr "Try a bean stew.")].
Defined.

(** C3, counterexample: the primary endpoint answers 200 with a [text]
    that is [null]; the client returns [None], which is not a string. *)
Lemma null_text_run :
  get_ai_response (J := ref_json) env_null_text lunch user1 []
  = (Ok VNone, [primary_request env_null_text lunch])
  /\ is_str VNone = false.
Proof. split; [now vm_compute | reflexivity]. Qed.

(** C1, counterexample: an event with the method PUT gets no result at
    all. *)
Lemma put_event_run :
  handler (J := ref_json) env_ok [("httpMethod", VStr "PUT")] VNone []
  = (Ok None, []).
Proof. reflexivity. Qed.


Lemma lunch_event_body :
  json_loads (Json := ref_json) (ref_dumps (chat_request "plan my lunch" "u1"))
  = Some (chat_request "plan my lunch" "u1").
Proof. now vm_compute. Qed.

Lemma env_ok_texts : upstream_text_is_str (J := ref_json) env_ok.
Proof.
  intros w rq r v t Hn _ Hl (d & o & -> & Hd & Ho).
  unfold env_ok, env, network, by_endpoint in Hn.
  destruct (contains "dashscope-intl" (url rq)); injection Hn as <-;
    vm_compute in Hl; injection Hl as <-;
    vm_compute in Hd; injection Hd as <-;
    vm_compute in Ho; injection Ho as <-; reflexivity.
Qed.

Lemma noon_valid : valid_datetime noon.
Proof. unfold valid_datetime, noon; simpl; lia. Qed.


(** C1, witness: a POST whose body is the JSON number 7.  The membership
    test on the decoded body raises, and the handler turns the exception
    into the 500 result. *)
Lemma number_body_run :
  handler (J := ref_json) env_ok (post_event (VInt 7)) VNone []
  = (Ok (Some (error_result env_ok
                 (TypeError "argument of type 'int' is not iterable"))), [])
  /\ statusCode (error_result (J := ref_json) env_ok
                   (TypeError "argument of type 'int' is not iterable"))
     = 500%Z.
Proof.
  destruct (handler_never_raises env_ok (post_event (VInt 7)) VNone [])
    as (_ & _ & Hcaught).
  destruct (Hcaught (TypeError "argument of type 'int' is not iterable") [])
    as (Hres & Hstatus & _); [now vm_compute | ].
  split; [exact Hres | exact Hstatus].
Defined.

(** C3, witness: with texts that are strings the client returns a
    string. *)
Lemma string_text_run :
  exists s w',
    get_ai_response (J := ref_json) env_ok lunch user1 [] = (Ok (VStr s), w').
Proof.
  destruct (get_ai_response_never_raises env_ok lunch user1 [])
    as (_ & _ & _ & Hstr).
  exact (Hstr env_ok_texts).
Defined.

(** * Concrete runs of the further properties *)

(** X1, witness: the answer to the well-formed POST. *)
Lemma lunch_shape_run :
  (statusCode (chat_result (J := ref_json) env_ok (VStr "Try a lentil soup."))
     = 200%Z
   \/ statusCode (chat_result (J := ref_json) env_ok (VStr "Try a lentil soup."))
      = 500%Z)
  /\ In ("Access-Control-Allow-Origin", "*")
        (res_headers (chat_result (J := ref_json) env_ok
                        (VStr "Try a lentil soup."))).
Proof.
  destruct (handler_result_shape env_ok lunch_event VNone []
              [primary_request env_ok lunch]
              (chat_result env_ok (VStr "Try a lentil soup.")))
    as (Hs & Hc & _); [now vm_compute | ].
  split; [exact Hs | exact Hc].
Defined.

(** X2, witness: an event with no method and a message in its body. *)
Lemma no_method_run :
  handler (J := ref_json) env_ok no_method_event VNone []
  = (Ok (Some (get_result env_ok)), []).
Proof.
  destruct (get_is_static env_ok no_method_event VNone [])
    as (H & _); [left; reflexivity | exact H].
Defined.

(** X3, witness: an OPTIONS event that carries a body. *)
Lemma options_run :
  handler (J := ref_json) env_ok options_event VNone []
  = (Ok (Some options_result), []).
Proof.
  destruct (options_is_preflight env_ok options_event VNone [])
    as (H & _); [reflexivity | exact H].
Defined.


(** X7, witness: a body that is the number 7. *)
Lemma number_event_run :
  handler (J := ref_json) env_ok number_event VNone []
  = (Ok (Some (debug_result env_ok number_event)), []).
Proof.
  apply (non_string_body_is_debug env_ok number_event VNone (VInt 7) []);
    try reflexivity; discriminate.
Defined.

Lemma with_text_is (t : value) : output_text_is (with_text t) t.
Proof. now exists [("output", VDict [("text", t)])], [("text", t)]. Qed.

Lemma error_answer_lacks_text (code : string) : lacks_text (error_answer code).
Proof.
  exists [ ("code", VStr code); ("message", VStr "request failed") ].
  split; [reflexivity | now left].
Qed.

(** X11, witness: the primary endpoint answers a text. *)
Lemma primary_text_run :
  get_ai_response (J := ref_json) env_ok lunch user1 []
  = (Ok (VStr "Try a lentil soup."), [primary_request env_ok lunch]).
Proof.
  apply (primary_text_is_returned env_ok lunch user1 []
           {| status_code := 200;
              text := ref_dumps (with_text (VStr "Try a lentil soup.")) |}
           (with_text (VStr "Try a lentil soup.")));
    first [reflexivity | apply with_text_is].
Defined.

(** X12, witness: the primary endpoint answers 200 with an [output] that
    has no text. *)
Lemma primary_no_text_run :
  get_ai_response (J := ref_json) env_no_text lunch user1 []
  = (Ok (VStr canned_suggestion), [primary_request env_no_text lunch]).
Proof.
  apply (primary_without_text_is_canned env_no_text lunch user1 []
           {| status_code := 200;
              text := ref_dumps
                        (VDict [ ("output",
                                   VDict [ ("finish_reason", VStr "stop") ]) ]) |}
           (VDict [ ("output", VDict [ ("finish_reason", VStr "stop") ]) ]));
    try reflexivity.
  exists [ ("output", VDict [ ("finish_reason", VStr "stop") ]) ].
  split; [reflexivity | right].
  now exists [ ("finish_reason", VStr "stop") ].
Defined.

(** X13, witness: a 200 answer whose text is [null] is final too. *)
Lemma primary_final_run :
  snd (get_ai_response (J := ref_json) env_null_text lunch user1 [])
  = [primary_request env_null_text lunch].
Proof.
  apply (primary_200_is_final env_null_text lunch user1 []
           {| status_code := 200; text := ref_dumps (with_text VNone) |});
    reflexivity.
Defined.

(** X14, witness: the primary request is refused. *)
Lemma primary_down_run :
  get_ai_response (J := ref_json) env_down lunch user1 []
  = (Ok (VStr exception_fallback), [primary_request env_down lunch]).
Proof.
  apply (primary_failure_is_not_retried env_down lunch user1 []);
    [reflexivity | left].
  now exists (RequestException "connection refused").
Defined.

(** X15, witness: the primary endpoint answers 401, the retry 500. *)
Lemma retry_500_run :
  get_ai_response (J := ref_json) env_401_500 lunch user1 []
  = (Ok (VStr technical_difficulties),
     [primary_request env_401_500 lunch; retry_request env_401_500 lunch]).
Proof.
  apply (retry_status_decides_fallback env_401_500 lunch user1 []
           {| status_code := 401;
              text := ref_dumps (error_answer "InvalidApiKey") |}
           {| status_code := 500;
              text := ref_dumps (error_answer "InternalError") |});
    try reflexivity; discriminate.
Defined.

(** X16, witness: the retry answers 200 with a mapping without text. *)
Lemma retry_no_text_run :
  get_ai_response (J := ref_json) env_503_no_text lunch user1 []
  = (Ok (VStr technical_difficulties),
     [primary_request env_503_no_text lunch;
      retry_request env_503_no_text lunch]).
Proof.
  destruct (retry_without_text env_503_no_text lunch user1 []
              {| status_code := 503;
                 text := ref_dumps (error_answer "ServiceUnavailable") |}
              eq_refl eq_refl ltac:(discriminate))
    as (_ & _ & Hlack).
  apply (Hlack {| status_code := 200;
                  text := ref_dumps (error_answer "Throttling") |}
               (error_answer "Throttling"));
    first [reflexivity | apply error_answer_lacks_text].
Defined.

(** X17, witness: the text returned on the well-formed run is the text of
    the primary answer. *)
Lemma provenance_run :
  is_fixed_text (VStr "Try a lentil soup.")
  \/ from_upstream (J := ref_json) env_ok lunch (VStr "Try a lentil soup.").
Proof.
  apply (client_answer_provenance env_ok lunch user1
           (VStr "Try a lentil soup.") [] [primary_request env_ok lunch]).
  now vm_compute.
Defined.

(** X19, witness: the well-formed request through the shim. *)
Lemma shim_lunch_run :
  exists res w',
    handler (J := ref_json) env_ok
      (shim_event (chat_request "plan my lunch" "u1")) (VDict []) []
    = (Ok (Some res), w')
    /\ do_POST (J := ref_json) env_ok
         (Ok (ref_dumps (chat_request "plan my lunch" "u1"))) []
       = (Ok (wire_of res), w')
    /\ parse_body (J := ref_json)
         (shim_event (chat_request "plan my lunch" "u1"))
         (get_body_str (shim_event (chat_request "plan my lunch" "u1")))
       = chat_request "plan my lunch" "u1".
Proof.
  destruct (do_POST_forwards env_ok
              (ref_dumps (chat_request "plan my lunch" "u1"))
              (chat_request "plan my lunch" "u1") [] lunch_event_body)
    as (res & w' & Hh & Hp & Hb).
  exists res, w'.
  split; [exact Hh | split; [exact Hp | ]].
  apply Hb; [discriminate | exact lunch_event_body].
Defined.

(** X21, witness: the answer to the well-formed POST carries the
    timestamp of noon. *)
Lemma lunch_timestamp_run :
  chat_result (J := ref_json) env_ok (VStr "Try a lentil soup.") = options_result
  \/ (exists fields,
        res_body (chat_result (J := ref_json) env_ok (VStr "Try a lentil soup."))
        = json_dumps (Json := ref_json)
            (VDict (fields ++ [ ("timestamp", VStr (strftime (now env_ok))) ]))
        /\ is_timestamp (strftime (now env_ok)) = true).
Proof.
  apply (results_are_timestamped env_ok lunch_event VNone []
           [primary_request env_ok lunch]
           (chat_result env_ok (VStr "Try a lentil soup.")) noon_valid).
  now vm_compute.
Defined.

(** X22, witness: an OPTIONS event with and without key and network. *)
Lemma options_independent_run :
  fst (handler (J := ref_json) env_ok options_event VNone [])
  = fst (handler (J := ref_json) env_no_key
           [ ("httpMethod", VStr "OPTIONS") ] (VDict [])
           [primary_request env_ok lunch])
  /\ snd (handler (J := ref_json) env_ok options_event VNone []) = [].
Proof.
  apply (non_post_is_independent env_ok env_no_key options_event
           [ ("httpMethod", VStr "OPTIONS") ] VNone (VDict []) []
           [primary_request env_ok lunch]);
    [reflexivity | reflexivity | discriminate].
Defined.

(** X23, witness: a body that is the JSON text [true]. *)
Lemma true_body_run :
  handler (J := ref_json) env_ok (post_event (VBool true)) VNone []
  = (Ok (Some (error_result env_ok
                 (TypeError "argument of type 'bool' is not iterable"))), []).
Proof.
  apply (scalar_body_is_500 env_ok (post_event (VBool true)) VNone
           (VBool true) []); reflexivity.
Defined.

(** * Concrete runs of the logged handler *)

Lemma utf8_quiet : quiet utf8.
Proof. repeat split. intros s. now eexists. Qed.

Lemma lunch_body_text : ref_dumps (chat_request "plan my lunch" "u1") <> "".
Proof. now vm_compute. Qed.

(** C2, counterexample: the body is the well-formed object with a
    non-empty message that stdout encodes, the primary endpoint answers
    200 with a [text] that is [null], and the body of the 200 result
    decodes to an object whose [response] is [null], not a string. *)
Lemma null_response_run :
  json_loads (Json := ref_json) (ref_dumps (chat_request "plan my lunch" "u1"))
  = Some (chat_request "plan my lunch" "u1")
  /\ exists res,
       Logged.handler (J := ref_json) utf8 env_null_text lunch_event VNone []
       = (Ok (Some res), [primary_request env_null_text lunch])
       /\ statusCode res = 200%Z
       /\ json_loads (Json := ref_json) (res_body res)
          = Some (VDict [ ("response", VNone);
                          ("timestamp", VStr "2025-06-01 12:30:05") ]).
Proof.
  split; [exact lunch_event_body | ].
  eexists. split; [now vm_compute | split; now vm_compute].
Qed.

(** C2, witness: the same POST with texts that are strings, and the POST
    whose message stdout cannot encode. *)
Lemma lunch_run :
  (exists v w',
     Logged.handler (J := ref_json) utf8 env_ok lunch_event VNone []
     = (Ok (Some (chat_result env_ok v)), w')
     /\ statusCode (chat_result (J := ref_json) env_ok v) = 200%Z
     /\ is_timestamp (strftime (now env_ok)) = true
     /\ exists r,
          v = VStr r
          /\ json_loads (Json := ref_json) (res_body (chat_result env_ok v))
             = Some (chat_object r (strftime (now env_ok))))
  /\ Logged.handler (J := ref_json) refusing env_ok surrogate_message_event
       VNone []
     = (Ok (Some (error_result env_ok
                    (UnicodeEncodeError "surrogates not allowed"))), []).
Proof.
  split.
  - destruct (well_formed_post_ok (J := ref_json) utf8 env_ok lunch_event VNone []
                (ref_dumps (chat_request "plan my lunch" "u1"))
                "plan my lunch" "u1" noon_valid eq_refl eq_refl eq_refl
                lunch_body_text eq_refl lunch_event_body ltac:(discriminate))
      as (Hok & _).
    destruct (Hok eq_refl) as (v & w' & Hh & Hs & _ & Hts & _ & _ & Hstr).
    destruct (Hstr env_ok_texts) as (r & Hr & Hrt).
    exists v, w'. split; [exact Hh | ]. split; [exact Hs | ].
    split; [exact Hts | ]. exists r. split; [exact Hr | ].
    exact (Hrt ref_chat_roundtrip).
  - assert (Hne : ref_dumps (chat_request ("plan my lunch " ++ surrogate) "u1")
                  <> "") by now vm_compute.
    destruct (well_formed_post_ok (J := ref_json) refusing env_ok
                surrogate_message_event VNone []
                (ref_dumps (chat_request ("plan my lunch " ++ surrogate) "u1"))
                ("plan my lunch " ++ surrogate) "u1" noon_valid
                ltac:(now vm_compute) eq_refl eq_refl Hne
                ltac:(now vm_compute) ltac:(now vm_compute)
                ltac:(discriminate))
      as (_ & Hno).
    exact (proj1 (Hno ltac:(now vm_compute))).
Defined.

(** C7, counterexample: the body is the empty string.  Decoding it fails,
    yet the body used is the empty mapping, not the event: the message the
    event carries beside its body is not found, and the answer is the
    debug text. *)
Lemma empty_body_run :
  Logged.get_body_str (J := ref_json) utf8 empty_body_event []
  = (Ok (VStr ""), [])
  /\ json_loads (Json := ref_json) "" = None
  /\ Logged.parse_body (J := ref_json) utf8 empty_body_event (VStr "") []
     = (Ok (VDict []), [])
  /\ VDict [] <> VDict empty_body_event
  /\ fst (Logged.extract_message (J := ref_json) utf8 (VDict empty_body_event) [])
     = Ok (lunch, VStr "anonymous")
  /\ Logged.handler (J := ref_json) utf8 env_ok empty_body_event VNone []
     = (Ok (Some (debug_result env_ok empty_body_event)), []).
Proof.
  split; [reflexivity | ]. split; [reflexivity | ]. split; [reflexivity | ].
  split; [discriminate | ]. split; now vm_compute.
Qed.

(** C7, witness: a body that is not JSON makes the event the body; a body
    that is the literal of an integer of 4301 digits makes the decoder
    raise [ValueError], and the handler answers with the 500 error
    result. *)
Lemma body_decoding_run :
  Logged.parse_body (J := ref_json) utf8 garbled_event (VStr "plan my lunch") []
  = (Ok (VDict garbled_event), [])
  /\ Logged.handler (J := limit_json) int_limit env_ok long_literal_event VNone []
     = (Ok (Some (error_result (J := limit_json) env_ok digits_error)), []).
Proof.
  split.
  - destruct (body_extraction_precedence (J := ref_json) utf8 env_ok
                garbled_event [])
      as (_ & _ & _ & _ & Hfail & _).
    apply (Hfail "plan my lunch" "Expecting value: line 1 column 1 (char 0)");
      [discriminate | now vm_compute | reflexivity].
  - destruct (body_extraction_precedence (J := limit_json) int_limit env_ok
                long_literal_event [])
      as (_ & _ & _ & _ & _ & _ & _ & Hh).
    destruct (Hh VNone ltac:(now vm_compute) eq_refl) as (_ & Hr).
    apply Hr. now vm_compute.
Defined.

(** C8, counterexample: a POST whose body is the JSON text [null].  No
    message can be extracted from it, and the handler answers 500 with the
    error text, not 200 with the debug text: the membership test on the
    decoded body raises [TypeError]. *)
Lemma null_body_run :
  Logged.get_body_str (J := ref_json) utf8 (post_event VNone) []
  = (Ok (VStr "null"), [])
  /\ Logged.parse_body (J := ref_json) utf8 (post_event VNone) (VStr "null") []
     = (Ok VNone, [])
  /\ Logged.handler (J := ref_json) utf8 env_ok (post_event VNone) VNone []
     = (Ok (Some (error_result env_ok
                    (TypeError "argument of type 'NoneType' is not iterable"))),
        [])
  /\ statusCode (error_result (J := ref_json) env_ok
                   (TypeError "argument of type 'NoneType' is not iterable"))
     = 500%Z.
Proof. repeat split; now vm_compute. Qed.

(** C8, witness: a POST whose body is an object with no message gets the
    debug answer; a POST with a blank message and a user identifier that
    stdout cannot encode gets the 500 error result. *)
Lemma no_message_run :
  (Logged.handler (J := ref_json) utf8 env_ok no_message_event VNone []
   = (Ok (Some (debug_result env_ok no_message_event)), [])
   /\ statusCode (debug_result (J := ref_json) env_ok no_message_event) = 200%Z)
  /\ Logged.handler (J := ref_json) refusing env_ok surrogate_user_event VNone []
     = (Ok (Some (error_result env_ok
                    (UnicodeEncodeError "surrogates not allowed"))), []).
Proof.
  split.
  - destruct (no_message_debug_result (J := ref_json) utf8 env_ok
                no_message_event VNone [] ltac:(now vm_compute) eq_refl)
      as (Hdebug & _).
    destruct (Hdebug (VDict [ ("user_id", VStr "u1") ]) (VStr "anonymous") ""
                ltac:(now vm_compute) ltac:(now vm_compute) eq_refl)
      as (Hres & Hstatus & _).
    split; [exact Hres | exact Hstatus].
  - destruct (no_message_debug_result (J := ref_json) refusing env_ok
                surrogate_user_event VNone [] ltac:(now vm_compute) eq_refl)
      as (_ & _ & Hrefused).
    destruct (Hrefused (chat_request " " surrogate) (VStr " ") (VStr surrogate)
                ltac:(now vm_compute) ltac:(now vm_compute)
                ltac:(now vm_compute))
      as (Hres & _).
    exact Hres.
Defined.

(** X4, witness: the well-formed POST causes the primary request and
    nothing else. *)
Lemma lunch_requests_run :
  snd (Logged.handler (J := ref_json) utf8 env_ok lunch_event VNone [])
  = [primary_request env_ok lunch].
Proof.
  destruct (handler_upstream_calls (J := ref_json) utf8 env_ok lunch_event
              VNone []) as (Hsend & _).
  apply (Hsend (chat_request "plan my lunch" "u1") "plan my lunch" user1);
    try (now vm_compute).
Defined.

(** X5, witness: the request nested under [body]. *)
Lemma nested_run :
  answers_logged (J := ref_json) utf8 env_ok nested_event VNone []
    "plan my dinner" (VStr "u2").
Proof.
  destruct (nested_body_message (J := ref_json) utf8 env_ok nested_event
              [ ("body", VStr (ref_dumps (chat_request "plan my dinner" "u2"))) ]
              [ ("message", VStr "plan my dinner"); ("user_id", VStr "u2") ]
              VNone (ref_dumps (chat_request "plan my dinner" "u2"))
              "plan my dinner" []
              ltac:(now vm_compute) eq_refl ltac:(now vm_compute) eq_refl eq_refl
              ltac:(now vm_compute) eq_refl ltac:(now vm_compute))
    as (Hok & _).
  exact (Hok eq_refl).
Defined.

(** X8, witness: a body that is a mapping with a message and no user. *)
Lemma mapping_run :
  answers_logged (J := ref_json) utf8 env_ok mapping_event VNone []
    "plan my lunch" (VStr "anonymous").
Proof.
  destruct (mapping_body_is_used (J := ref_json) utf8 env_ok mapping_event
              [ ("message", lunch); ("lang", VStr "en") ] VNone "plan my lunch" []
              ltac:(now vm_compute) eq_refl eq_refl eq_refl
              ltac:(now vm_compute))
    as (Hok & _).
  exact (Hok eq_refl).
Defined.

(** A mapping body whose message stdout cannot encode gets the 500 error
    result. *)
Lemma surrogate_mapping_run :
  Logged.handler (J := ref_json) refusing env_ok surrogate_mapping_event VNone []
  = (Ok (Some (error_result env_ok
                 (UnicodeEncodeError "surrogates not allowed"))), []).
Proof. now vm_compute. Qed.

(** X9, witness: a body that is the JSON string "my message". *)
Lemma string_body_run :
  Logged.handler (J := ref_json) utf8 env_ok (post_event (VStr "my message"))
    VNone []
  = (Ok (Some (error_result env_ok
                 (TypeError "string indices must be integers, not 'str'"))), []).
Proof.
  apply (string_body_is_searched (J := ref_json) utf8 env_ok
           (post_event (VStr "my message")) VNone
           (ref_dumps (VStr "my message")) "my message" []);
    try reflexivity; now vm_compute.
Defined.

(** A body that is the JSON text of a string stdout cannot encode gets
    the 500 error result of the print of line 63. *)
Lemma surrogate_string_run :
  Logged.handler (J := ref_json) refusing env_ok surrogate_string_event VNone []
  = (Ok (Some (error_result env_ok
                 (UnicodeEncodeError "surrogates not allowed"))), []).
Proof. now vm_compute. Qed.

(** X10, witness: the well-formed POST of user u1 and the mapping body
    with no user get the same result. *)
Lemma same_message_run :
  Logged.handler (J := ref_json) utf8 env_ok lunch_event VNone []
  = Logged.handler (J := ref_json) utf8 env_ok mapping_event (VDict []) [].
Proof.
  destruct (answer_depends_on_message_only (J := ref_json) utf8 env_ok
              lunch_event mapping_event
              [ ("message", lunch); ("user_id", user1) ]
              [ ("message", lunch); ("lang", VStr "en") ]
              VNone (VDict []) "plan my lunch" []
              ltac:(now vm_compute) ltac:(now vm_compute) eq_refl eq_refl
              ltac:(now vm_compute) ltac:(now vm_compute) eq_refl eq_refl
              ltac:(now vm_compute) eq_refl eq_refl)
    as (Hsame & _).
  exact (Hsame eq_refl).
Defined.

(** X18, witness: a request body that is not JSON. *)
Lemma shim_garbled_run :
  Logged.do_POST (J := ref_json) utf8 env_ok (Ok "plan my lunch") []
  = (Ok (shim_error
           (JSONDecodeError "Expecting value: line 1 column 1 (char 0)")), [])
  /\ wire_status
       (shim_error (J := ref_json)
          (JSONDecodeError "Expecting value: line 1 column 1 (char 0)"))
     = 500%Z.
Proof.
  destruct (do_POST_bad_request (J := ref_json) utf8 env_ok [])
    as (_ & Hjson & Hshape).
  split.
  - apply (Hjson "plan my lunch"). now vm_compute.
  - exact (proj1 (Hshape _)).
Defined.
